(** * The template-driven generation engine of [content_generator.py]

    A shallow embedding of [AIContentGenerator]: the template registry,
    body synthesis, derived metadata, the quality score, the variants and the
    generation history with its statistics.

    Conventions of the embedding.
    - A Python [str] is the list of its code points, so [len] is [length],
      [s[:n]] is [take n s] and [+] is [++].
    - A Python [float] is a binary64 float of the kernel, so a sum of
      scores rounds as it does in Python.
    - A [dict] is a [gmap]; a Python [list] is a [list].
    - A call that can raise returns an [Outcome]; the mutable parts of the
      process (the engine's two lists, the clock, the global random generator)
      are threaded through the [Py] monad. *)

From Stdlib Require Import Strings.String Strings.Ascii.
From Stdlib Require Import ZArith NArith Lia.
From Stdlib Require Import Floats.PrimFloat.
From stdpp Require Import gmap list.

#[local] Set Warnings "-inexact-float".

(** ** Python strings *)

Abbreviation str := (list N) (only parsing).

(** Source text is UTF-8; [utf8_decode] reads the code points of a literal.
    [pending] counts the continuation bytes still expected and [acc] holds
    the bits read so far. *)
Fixpoint utf8_decode (pending : nat) (acc : N) (s : string) : str :=
  match s with
  | EmptyString => []
  | String a rest =>
      let b := N_of_ascii a in
      match pending with
      | O =>
          if (b <? 128)%N then b :: utf8_decode 0 0%N rest
          else if (b <? 224)%N then utf8_decode 1 (b - 192)%N rest
          else if (b <? 240)%N then utf8_decode 2 (b - 224)%N rest
          else utf8_decode 3 (b - 240)%N rest
      | S O => (acc * 64 + (b - 128))%N :: utf8_decode 0 0%N rest
      | S k => utf8_decode k (acc * 64 + (b - 128))%N rest
      end
  end.

Definition u (s : string) : str := utf8_decode 0 0%N s.
Arguments u s%_string_scope : simpl never.

(** The double quote, which a literal of this file cannot hold. *)
Definition dq : str := [34%N].

(** The line break, [\n]. *)
Definition nl : str := [10%N].

(** [old == s[:len(old)]] *)
Fixpoint startswith (old s : str) : bool :=
  match old, s with
  | [], _ => true
  | _ :: _, [] => false
  | a :: old', b :: s' => (a =? b)%N && startswith old' s'
  end.

(** [sub in s] *)
Fixpoint str_in (sub s : str) : bool :=
  startswith sub s
  || match s with
     | [] => false
     | _ :: s' => str_in sub s'
     end.

(** [s.replace(old, new)] for a non-empty [old]: the occurrences are taken
    left to right and do not overlap; [skip] counts the characters of an
    occurrence that remain to be dropped. *)
Fixpoint replace_from (old new : str) (skip : nat) (s : str) : str :=
  match s with
  | [] => []
  | c :: s' =>
      match skip with
      | S k => replace_from old new k s'
      | O =>
          if startswith old s
          then new ++ replace_from old new (length old - 1) s'
          else c :: replace_from old new 0 s'
      end
  end.

(** [s.replace(old, new)]; with an empty [old], Python puts [new] before
    every character and at the end. *)
Definition replace (old new s : str) : str :=
  match old with
  | [] => new ++ flat_map (fun c => c :: new) s
  | _ :: _ => replace_from old new 0 s
  end.

(** [s.count(sub)] for a non-empty [sub] (non-overlapping occurrences). *)
Fixpoint count_from (sub : str) (skip : nat) (s : str) : nat :=
  match s with
  | [] => 0
  | _ :: s' =>
      match skip with
      | S k => count_from sub k s'
      | O =>
          if startswith sub s
          then S (count_from sub (length sub - 1) s')
          else count_from sub 0 s'
      end
  end.

Definition count (sub s : str) : nat := count_from sub 0 s.

(** The texts the clock shows are made of ASCII characters; a character of
    such a text is the code point of its byte. *)
Definition ascii_text (s : string) : str :=
  N_of_ascii <$> list_ascii_of_string s.

(** ** Encoding

    [s.encode()] writes a text in UTF-8. A code point of the surrogate range
    U+D800..U+DFFF has no encoding; a Python text can hold one, and
    [encode] raises UnicodeEncodeError for it. *)

Definition surrogate (c : N) : bool := ((55296 <=? c) && (c <=? 57343))%N.

(** The code points a text can hold and UTF-8 can write. *)
Definition encodable (s : str) : Prop :=
  Forall (λ c, surrogate c = false ∧ (c ≤ 1114111)%N) s.

#[global] Instance encodable_dec (s : str) : Decision (encodable s).
Proof. unfold encodable. apply _. Defined.

Definition utf8_char (c : N) : list N :=
  (if c <? 128 then [c]
   else if c <? 2048 then [192 + c / 64; 128 + c mod 64]
   else if c <? 65536 then
     [224 + c / 4096; 128 + (c / 64) mod 64; 128 + c mod 64]
   else
     [240 + c / 262144; 128 + (c / 4096) mod 64; 128 + (c / 64) mod 64;
      128 + c mod 64])%N.

(** The bytes of an encodable text. *)
Definition utf8_bytes (s : str) : list N := s ≫= utf8_char.

(** ** Floats *)

(** [float(n)] for a length [n]; exact below 2^53. *)
Fixpoint float_of_positive (p : positive) : float :=
  match p with
  | xH => 1
  | xO q => 2 * float_of_positive q
  | xI q => 2 * float_of_positive q + 1
  end%float.

Definition float_of_nat (n : nat) : float :=
  match N.of_nat n with
  | N0 => 0%float
  | Npos p => float_of_positive p
  end.

(** [min(a, b)]: the first argument unless the second is smaller. *)
Definition float_min (a b : float) : float :=
  if PrimFloat.ltb b a then b else a.

(** A number as a [dict] value can hold it: an [int] or a [float]. *)
Inductive PyNumber :=
  | PyInt (z : Z)
  | PyFloat (f : float).

(** ** The data model *)

Inductive Platform :=
  BLOG | TWITTER | INSTAGRAM | LINKEDIN | WEIBO | ZHIHU | MEDIUM.

Inductive ContentType :=
  ARTICLE | POST | CAPTION | AD_COPY | PRODUCT_DESC | HEADLINE | SUMMARY.

Definition Platform_value (p : Platform) : str :=
  match p with
  | BLOG => u "blog"
  | TWITTER => u "twitter"
  | INSTAGRAM => u "instagram"
  | LINKEDIN => u "linkedin"
  | WEIBO => u "weibo"
  | ZHIHU => u "zhihu"
  | MEDIUM => u "medium"
  end.

Definition Platform_name (p : Platform) : str :=
  match p with
  | BLOG => u "BLOG"
  | TWITTER => u "TWITTER"
  | INSTAGRAM => u "INSTAGRAM"
  | LINKEDIN => u "LINKEDIN"
  | WEIBO => u "WEIBO"
  | ZHIHU => u "ZHIHU"
  | MEDIUM => u "MEDIUM"
  end.

Definition ContentType_value (c : ContentType) : str :=
  match c with
  | ARTICLE => u "article"
  | POST => u "post"
  | CAPTION => u "caption"
  | AD_COPY => u "ad_copy"
  | PRODUCT_DESC => u "product_description"
  | HEADLINE => u "headline"
  | SUMMARY => u "summary"
  end.

(** [for p in Platform] *)
Definition all_platforms : list Platform :=
  [BLOG; TWITTER; INSTAGRAM; LINKEDIN; WEIBO; ZHIHU; MEDIUM].

#[global] Instance Platform_eq_dec : EqDecision Platform.
Proof. solve_decision. Defined.

#[global] Instance ContentType_eq_dec : EqDecision ContentType.
Proof. solve_decision. Defined.

Definition Platform_index (p : Platform) : nat :=
  match p with
  | BLOG => 0 | TWITTER => 1 | INSTAGRAM => 2 | LINKEDIN => 3
  | WEIBO => 4 | ZHIHU => 5 | MEDIUM => 6
  end.

Definition ContentType_index (c : ContentType) : nat :=
  match c with
  | ARTICLE => 0 | POST => 1 | CAPTION => 2 | AD_COPY => 3
  | PRODUCT_DESC => 4 | HEADLINE => 5 | SUMMARY => 6
  end.

Definition all_content_types : list ContentType :=
  [ARTICLE; POST; CAPTION; AD_COPY; PRODUCT_DESC; HEADLINE; SUMMARY].

#[global] Instance Platform_countable : Countable Platform.
Proof.
  apply (inj_countable' Platform_index (fun n => nth n all_platforms BLOG)).
  intros []; reflexivity.
Defined.

#[global] Instance ContentType_countable : Countable ContentType.
Proof.
  apply (inj_countable' ContentType_index
           (fun n => nth n all_content_types ARTICLE)).
  intros []; reflexivity.
Defined.

Record ContentTemplate := {
  name : str;
  platform : str;
  content_type : str;
  prompt : str;
  variables : list str;
  min_length : Z;
  max_length : Z;
  tone : str;
  examples : list str
}.

Record GeneratedContent := {
  id : str;
  gc_platform : str;
  gc_content_type : str;
  title : str;
  body : str;
  tags : list str;
  hashtags : list str;
  created_at : str;
  quality_score : float;
  variants : list str
}.

(** ** The template library: the prompts of [ContentTemplates.TEMPLATES] *)

Definition prompt_blog_article : str :=
  dq ++ u "/role: 资深技术博主
/tone: 专业但易懂
/length: 1500-3000字
/format: 
- 引人入胜的开头
- 清晰的结构
- 代码示例
- 实践建议
- 总结展望

请撰写一篇关于{topic}的技术文章。".

Definition prompt_twitter_post : str :=
  dq ++ u "/role: 技术专家
/tone: 简洁有力
/length: 200-280字符
/format:
- 核心观点
- 简要解释
- 1-2个代码片段或数据
- CTA互动

分享关于{topic}的见解：".

Definition prompt_twitter_headline : str :=
  dq ++ u "/role: 标题党大师
/tone: 吸引眼球
/length: 80-100字符
/techniques:
- 数字具体化
- 痛点解决
- 反常识
- 紧迫感

为" ++ dq ++ u "{topic}" ++ dq ++ u "创作5个爆款标题：".

Definition prompt_weibo_post : str :=
  dq ++ u "/role: 生活方式博主
/tone: 亲切有趣
/length: 100-200字
/elements:
- 热点结合
- 个人故事
- 轻松幽默
- 话题标签

分享关于{topic}的感受：".

Definition prompt_linkedin_post : str :=
  dq ++ u "/role: 职场导师
/tone: 专业真诚
/length: 800-1500字符
/structure:
- 问题引入
- 亲身经历
- 方法论
- 行动建议

分享关于{topic}的职场心得：".

Definition prompt_zhihu_article : str :=
  dq ++ u "/role: 领域专家
/tone: 理性分析
/length: 1000-5000字
/format:
- 问题拆解
- 原因分析
- 解决方案
- 案例支撑

回答：{question}".

Definition guide_body (topic : str) : str :=
  u "# "
  ++ topic
  ++ u "完全指南

## 引言

在当今快速发展的技术世界中，"
  ++ topic
  ++ u "已经成为了一个不可忽视的重要话题。无论你是初学者还是资深开发者，掌握"
  ++ topic
  ++ u "都将为你的职业生涯带来巨大的帮助。

## 什么是"
  ++ topic
  ++ u "？

"
  ++ topic
  ++ u "是[领域]中最具影响力的技术/概念之一。它主要解决以下问题：

- 提高开发效率
- 降低维护成本
- 提升系统性能

## 核心原理

"
  ++ topic
  ++ u "的核心思想可以概括为三个要点：

### 1. 原理一

详细的原理解释...

### 2. 原理二

详细的原理解释...

### 3. 原理三

详细的原理解释...

## 实战示例

```python
# "
  ++ topic
  ++ u "示例代码
def example_function():
    # 代码示例
    result = process_data()
    return result
```

## 应用场景

"
  ++ topic
  ++ u "在实际工作中的应用场景非常广泛：

1. **场景一** - 具体应用...
2. **场景二** - 具体应用...
3. **场景三** - 具体应用...

## 最佳实践

基于多年的经验总结，以下是"
  ++ topic
  ++ u "的最佳实践：

1. **实践一** - 具体建议
2. **实践二** - 具体建议
3. **实践三** - 具体建议

## 常见问题

### Q1: "
  ++ topic
  ++ u "学习曲线陡峭吗？

A: 入门其实很简单，深入需要时间...

### Q2: 需要什么基础？

A: 建议先掌握...

## 总结

"
  ++ topic
  ++ u "是一个值得深入学习的技术/概念。希望本文能帮助你更好地理解和应用"
  ++ topic
  ++ u "。

---

💬 你对"
  ++ topic
  ++ u "有什么看法？欢迎在评论区交流！".

Definition tweet_body (topic : str) : str :=
  u "🧵 关于"
  ++ topic
  ++ u "，分享几个关键洞察：

"
  ++ topic
  ++ u "正在改变我们工作的方式。

核心观点：
→ 效率提升300%
→ 成本降低50%
→ 体验翻倍

关键数据支持这一结论。

你有什么经验？👇

#Tech #"
  ++ replace (u " ") (u "") topic
  ++ u " #AI".

Definition weibo_body (topic : str) : str :=
  u "救命！姐妹们！"
  ++ topic
  ++ u "真的绝了！！！🙀

最近在研究"
  ++ topic
  ++ u "，没想到效果这么惊艳！

✨ 具体感受：
- 操作简单
- 效果明显
- 性价比高

姐妹们一定要试试！冲冲冲！💪

#"
  ++ topic
  ++ u " #好物分享 #生活技巧".

Definition career_body (topic : str) : str :=
  u "💼 关于"
  ++ topic
  ++ u "，分享一段真实的职场经历。

3年前，我对"
  ++ topic
  ++ u "一无所知。
2年前，我开始接触并学习。
现在，"
  ++ topic
  ++ u "已经成为我工作中最重要的技能之一。

关键转变发生在：

📌 第一次认知突破
📌 第一次实践尝试  
📌 第一次获得认可

给职场新人的建议：

1️⃣ 不要怕犯错
2️⃣ 持续学习
3️⃣ 建立个人品牌

"
  ++ topic
  ++ u "的时代已经到来，你准备好了吗？

#职场成长 #技能提升 #"
  ++ topic.

Definition blog_article : ContentTemplate := {|
  name := u "技术博客文章";
  platform := Platform_value BLOG;
  content_type := ContentType_value ARTICLE;
  prompt := prompt_blog_article;
  variables := [u "topic"];
  min_length := 1500;
  max_length := 3000;
  tone := u "professional";
  examples := [u "Python异步编程完全指南"; u "微服务架构实战心得"]
|}.

Definition twitter_post : ContentTemplate := {|
  name := u "技术分享推文";
  platform := Platform_value TWITTER;
  content_type := ContentType_value POST;
  prompt := prompt_twitter_post;
  variables := [u "topic"];
  min_length := 100;
  max_length := 280;
  tone := u "engaging";
  examples := [u "🧵 Python 技巧 #1:"; u "刚学到的..."]
|}.

Definition twitter_headline : ContentTemplate := {|
  name := u "病毒式标题";
  platform := Platform_value TWITTER;
  content_type := ContentType_value HEADLINE;
  prompt := prompt_twitter_headline;
  variables := [u "topic"];
  min_length := 50;
  max_length := 100;
  tone := u "clickbait";
  examples := [u "7个让你效率翻倍的Python技巧"; u "这个误区让90%的程序员中招"]
|}.

Definition weibo_post : ContentTemplate := {|
  name := u "微博推广文案";
  platform := Platform_value WEIBO;
  content_type := ContentType_value POST;
  prompt := prompt_weibo_post;
  variables := [u "topic"];
  min_length := 50;
  max_length := 200;
  tone := u "casual";
  examples := [u "救命！这个真的绝了！"; u "姐妹们快看过来！！"]
|}.

Definition linkedin_post : ContentTemplate := {|
  name := u "职场洞察";
  platform := Platform_value LINKEDIN;
  content_type := ContentType_value POST;
  prompt := prompt_linkedin_post;
  variables := [u "topic"];
  min_length := 500;
  max_length := 1500;
  tone := u "professional";
  examples := [u "5年职场教会我的"; u "关于晋升那些事"]
|}.

Definition zhihu_article : ContentTemplate := {|
  name := u "知乎回答/文章";
  platform := Platform_value ZHIHU;
  content_type := ContentType_value ARTICLE;
  prompt := prompt_zhihu_article;
  variables := [u "question"];
  min_length := 500;
  max_length := 5000;
  tone := u "analytical";
  examples := [u "为什么Python这么流行？"; u "如何入门机器学习？"]
|}.

(** [ContentTemplates.TEMPLATES]: platform value, then content-type value. *)
Definition TEMPLATES : gmap str (gmap str ContentTemplate) :=
  list_to_map [
    (Platform_value BLOG,
      list_to_map [(ContentType_value ARTICLE, blog_article)]);
    (Platform_value TWITTER,
      list_to_map [(ContentType_value POST, twitter_post);
                   (ContentType_value HEADLINE, twitter_headline)]);
    (Platform_value WEIBO,
      list_to_map [(ContentType_value POST, weibo_post)]);
    (Platform_value LINKEDIN,
      list_to_map [(ContentType_value POST, linkedin_post)]);
    (Platform_value ZHIHU,
      list_to_map [(ContentType_value ARTICLE, zhihu_article)])
  ].

(** [TEMPLATES.get(platform.value, {}).get(content_type.value)] *)
Definition lookup_template (p : Platform) (c : ContentType)
  : option ContentTemplate :=
  default ∅ (TEMPLATES !! Platform_value p) !! ContentType_value c.

(** The invariant the design document puts on a template: the length range
    is not empty, there is a variable, and the prompt holds the placeholder
    of every declared variable exactly once. *)
Definition template_invariant (t : ContentTemplate) : Prop :=
  (min_length t ≤ max_length t)%Z
  ∧ variables t ≠ []
  ∧ Forall (fun v => count (u "{" ++ v ++ u "}") (prompt t) = 1) (variables t).

(** ** Exceptions and the process state *)

Inductive PyError :=
  | ValueError (msg : str)
  | IndexError
  | KeyError
  | AttributeError
  | ZeroDivisionError
  | TypeError
  | SyntaxError
  | UnicodeEncodeError.

Inductive Outcome (A : Type) :=
  | Return (a : A)
  | Raise (e : PyError).
Arguments Return {A} a.
Arguments Raise {A} e.

(** What one reading of [datetime.now()] shows: the text of its
    [timestamp()] as an f-string renders it, and its [isoformat()], both
    ASCII. *)
Record Instant := {
  timestamp : string;
  isoformat : string
}.

(** The engine object: [self.generation_history] and [self.quality_scores]. *)
Record AIContentGenerator := {
  generation_history : list GeneratedContent;
  quality_scores : list float
}.

(** The process: the engine, the clock with the number of readings taken,
    and the global generator of the [random] module with the number of
    values drawn. *)
Record State := {
  self : AIContentGenerator;
  clock : nat → Instant;
  clock_reads : nat;
  random : nat → nat;
  random_draws : nat
}.

Definition Py (A : Type) : Type := State → Outcome A * State.

#[global] Instance Py_ret : MRet Py := λ A a s, (Return a, s).

#[global] Instance Py_bind : MBind Py := λ A B f m s,
  match m s with
  | (Return a, s') => f a s'
  | (Raise e, s') => (Raise e, s')
  end.

Definition raise {A} (e : PyError) : Py A := λ s, (Raise e, s).

(** [AIContentGenerator.__init__] *)
Definition __init__ : AIContentGenerator := {|
  generation_history := [];
  quality_scores := []
|}.

(** A process that has just built its engine. *)
Definition fresh (c : nat → Instant) (r : nat → nat) : State := {|
  self := __init__;
  clock := c;
  clock_reads := 0;
  random := r;
  random_draws := 0
|}.

(** The three ways the process state moves on. *)
Definition tick (s : State) : State := {|
  self := self s;
  clock := clock s;
  clock_reads := S (clock_reads s);
  random := random s;
  random_draws := random_draws s
|}.

Definition draw (s : State) : State := {|
  self := self s;
  clock := clock s;
  clock_reads := clock_reads s;
  random := random s;
  random_draws := S (random_draws s)
|}.

Definition set_self (e : AIContentGenerator) (s : State) : State := {|
  self := e;
  clock := clock s;
  clock_reads := clock_reads s;
  random := random s;
  random_draws := random_draws s
|}.

(** [datetime.now()] *)
Definition datetime_now : Py Instant := λ s,
  (Return (clock s (clock_reads s)), tick s).

(** [random.choice(seq)]: IndexError on an empty sequence, else the element
    at the index the generator draws below [len(seq)]. *)
Definition random_choice {A} (seq : list A) : Py A := λ s,
  match seq !! (random s (random_draws s) `mod` length seq) with
  | None => (Raise IndexError, s)
  | Some a => (Return a, draw s)
  end.

(** [self.generation_history.append(g)] *)
Definition history_append (g : GeneratedContent) : Py unit := λ s,
  (Return (),
   set_self {| generation_history := generation_history (self s) ++ [g];
               quality_scores := quality_scores (self s) |} s).

(** [self.quality_scores.append(q)] *)
Definition scores_append (q : float) : Py unit := λ s,
  (Return (),
   set_self {| generation_history := generation_history (self s);
               quality_scores := quality_scores (self s) ++ [q] |} s).

(** [seq[0]] *)
Definition first_item {A} (seq : list A) : Py A :=
  match seq with
  | [] => raise IndexError
  | a :: _ => mret a
  end.

(** [d[k]] *)
Definition item `{Countable K} {A} (d : gmap K A) (k : K) : Py A :=
  match d !! k with
  | None => raise KeyError
  | Some a => mret a
  end.

(** [a / n] for a float [a] and a length [n] *)
Definition truediv (a : float) (n : nat) : Py float :=
  match n with
  | O => raise ZeroDivisionError
  | S _ => mret (a / float_of_nat n)%float
  end.

(** [raw.encode()] *)
Definition encode (raw : str) : Py (list N) :=
  if decide (encodable raw) then mret (utf8_bytes raw)
  else raise UnicodeEncodeError.

(** [[f(x) for x in xs]] where [f] may raise *)
Fixpoint comprehension {A B} (f : A → Py B) (xs : list A) : Py (list B) :=
  match xs with
  | [] => mret []
  | x :: xs' => y ← f x; ys ← comprehension f xs'; mret (y :: ys)
  end.

(** [s.value] on a [str]: there is no such attribute. *)
Definition str_value (s : str) : Py str := raise AttributeError.

(** ** The engine *)

Record PlatformInfo := {
  pi_id : str;
  pi_name : str;
  pi_icon : str
}.

Record TemplateSummary := {
  ts_id : str;
  ts_name : str;
  ts_type : str;
  ts_tone : str;
  ts_length : Z * Z;
  ts_examples : list str
}.

Record Statistics := {
  total_generated : nat;
  avg_quality : PyNumber;
  by_platform : gmap str nat;
  by_type : gmap str nat
}.

(** [_get_platform_icon] *)
Definition _get_platform_icon (p : Platform) : str :=
  let icons : gmap Platform str :=
    list_to_map [
      (BLOG, u "📝"); (TWITTER, u "🐦"); (INSTAGRAM, u "📷");
      (LINKEDIN, u "💼"); (WEIBO, u "🔹"); (ZHIHU, u "知乎");
      (MEDIUM, u "📰")
    ] in
  default (u "📄") (icons !! p).

(** [get_available_platforms] *)
Definition get_available_platforms : Py (list PlatformInfo) :=
  mret (map (fun p => {| pi_id := Platform_value p;
                         pi_name := Platform_name p;
                         pi_icon := _get_platform_icon p |})
            all_platforms).

(** [get_templates_for_platform]: the keys of the inner dict are the
    content-type values, plain strings, and the comprehension asks each
    for its [value]. *)
Definition get_templates_for_platform (p : Platform)
  : Py (list TemplateSummary) :=
  let templates := default ∅ (TEMPLATES !! Platform_value p) in
  comprehension
    (fun '(ct, t) =>
       i ← str_value ct;
       mret {| ts_id := i;
               ts_name := name t;
               ts_type := content_type t;
               ts_tone := tone t;
               ts_length := (min_length t, max_length t);
               ts_examples := take 2 (examples t) |})
    (map_to_list templates).

(** [_generate_tags] *)
Definition _generate_tags (topic : str) (p : Platform) : list str :=
  let base_tags := [topic] in
  if decide (p = TWITTER) then
    [u "Tech"; u "AI"; replace (u " ") (u "") topic]
  else if decide (p = WEIBO) then
    [u "#" ++ topic ++ u "#"; u "#好物分享#"; u "#生活日记#"]
  else if decide (p = ZHIHU) then
    [u "编程"; u "技术"; replace (u " ") (u "") topic]
  else base_tags.

(** [_generate_hashtags] *)
Definition _generate_hashtags (topic : str) (p : Platform) : list str :=
  let tags := [u "#" ++ replace (u " ") (u "") topic ++ u "#"] in
  let tags :=
    if decide (p = TWITTER) then
      tags ++ [u "#Tech"; u "#Innovation"; u "#AI"]
    else if decide (p = INSTAGRAM) then
      tags ++ [u "#tech"; u "#innovation"; u "#coding"]
    else tags in
  take 5 tags.

(** The two sentences [_generate_variants] appends, and the ellipsis. *)
Definition question_suffix : str := nl ++ nl ++ u "你对这个问题怎么看？".
Definition cta_suffix : str := nl ++ nl ++ u "觉得有用的话，记得点赞收藏！".
Definition ellipsis : str := u "...".

(** [_generate_variants] *)
Definition _generate_variants (content : str) (p : Platform) : list str :=
  let variants := [] in
  let variants :=
    if decide (500 < length content)
    then variants ++ [take 300 content ++ ellipsis]
    else variants in
  let variants := variants ++ [content ++ question_suffix] in
  let variants := variants ++ [content ++ cta_suffix] in
  variants.

(** [_calculate_quality] *)
Definition _calculate_quality (content : str) (t : ContentTemplate)
  : float :=
  let score := 0.5%float in
  let len := Z.of_nat (length content) in
  let score :=
    if (min_length t <=? len)%Z && (len <=? max_length t)%Z
    then (score + 0.2)%float else score in
  let score :=
    if str_in nl content then (score + 0.1)%float else score in
  let score :=
    if str_in (u "#") content || str_in (u "##") content
    then (score + 0.1)%float else score in
  float_min 1.0 score.

(** [counts[k] = counts.get(k, 0) + 1] over the history *)
Definition count_by (key : GeneratedContent → str)
    (history : list GeneratedContent) : gmap str nat :=
  foldl (fun counts c => <[key c := default 0 (counts !! key c) + 1]> counts)
        ∅ history.

(** [sum(xs)] over floats, added one after the other from the left as
    CPython does up to version 3.11 (the [int] 0 it starts from adds
    exactly). *)
Definition sum (xs : list float) : float := foldl PrimFloat.add 0%float xs.

(** [get_statistics] *)
Definition get_statistics : Py Statistics := λ s,
  (avg ← match quality_scores (self s) with
         | [] => mret (PyInt 0)
         | _ :: _ =>
             a ← truediv (sum (quality_scores (self s)))
                         (length (quality_scores (self s)));
             mret (PyFloat a)
         end;
   mret {| total_generated := length (generation_history (self s));
           avg_quality := avg;
           by_platform := count_by gc_platform (generation_history (self s));
           by_type := count_by gc_content_type (generation_history (self s))
        |}) s.

(** [_generate_title] *)
Definition _generate_title (topic : str) (c : ContentType) : Py str :=
  let titles : gmap ContentType (list str) :=
    list_to_map [
      (ARTICLE, [
         u "关于" ++ topic ++ u "，你需要知道的一切";
         topic ++ u "完全指南：从入门到精通";
         u "为什么" ++ topic ++ u "如此重要？";
         topic ++ u "的终极解答";
         u "深入理解" ++ topic ]);
      (POST, [
         u "关于" ++ topic ++ u "的思考";
         topic ++ u "：我的几点看法";
         u "聊聊" ++ topic;
         u "关于" ++ topic ++ u "，分享给需要的人" ]);
      (AD_COPY, [
         u "限时福利！" ++ topic ++ u "免费领！";
         u "发现了" ++ topic ++ u "的神仙用法！";
         u "后悔没早点知道的" ++ topic ++ u "技巧！";
         topic ++ u "，让生活更美好！" ])
    ] in
  fallback ← item titles ARTICLE;
  random_choice (default fallback (titles !! c)).

Section Engine.

(** [hashlib.md5(b).hexdigest()] *)
Variable md5_hexdigest : list N → str.

(** [_simulate_generation]. The f-string of the last branch opens a
    replacement field on line 479 ([{topic] without its closing brace) and
    never closes it: Python refuses the file for it with a SyntaxError, and
    the branch has no text to return. The error is charged here to the one
    branch that holds it. *)
Definition _simulate_generation (prompt : str) (t : ContentTemplate)
    (topic : str) : Py str :=
  if str_in (u "技术博客") (name t) || str_in (u "技术文章") (name t) then
    mret (guide_body topic)
  else if str_in (u "推文") (name t) || str_in (u "Twitter") (name t) then
    mret (tweet_body topic)
  else if str_in (u "微博") (name t) then
    mret (weibo_body topic)
  else if str_in (u "职场") (name t) || str_in (u "LinkedIn") (name t) then
    mret (career_body topic)
  else
    raise SyntaxError.

(** [_generate_id] *)
Definition _generate_id (topic : str) (p : Platform) : Py str :=
  now ← datetime_now;
  let raw := topic ++ Platform_value p ++ ascii_text (timestamp now) in
  encoded ← encode raw;
  mret (take 8 (md5_hexdigest encoded)).

(** [generate_content]; the log line is left out. *)
Definition generate_content (p : Platform) (c : ContentType)
    (topic tone language : str) : Py GeneratedContent :=
  match lookup_template p c with
  | None =>
      raise (ValueError (u "模板不存在: " ++ Platform_value p
                         ++ u "/" ++ ContentType_value c))
  | Some template =>
      v ← first_item (variables template);
      let prompt := replace (u "{" ++ v ++ u "}") topic (prompt template) in
      let prompt :=
        if decide (language = u "en")
        then u "/language: English" ++ nl ++ prompt
        else prompt in
      content ← _simulate_generation prompt template topic;
      let tags := _generate_tags topic p in
      let hashtags := _generate_hashtags topic p in
      let quality_score := _calculate_quality content template in
      i ← _generate_id topic p;
      ttl ← _generate_title topic c;
      now ← datetime_now;
      let generated := {|
        id := i;
        gc_platform := Platform_value p;
        gc_content_type := ContentType_value c;
        title := ttl;
        body := content;
        tags := tags;
        hashtags := hashtags;
        created_at := ascii_text (isoformat now);
        quality_score := quality_score;
        variants := _generate_variants content p
      |} in
      _ ← history_append generated;
      _ ← scores_append quality_score;
      mret generated
  end.

(** The calls a client can make on the engine, and what comes back. *)
Inductive Call :=
  | call_generate (p : Platform) (c : ContentType) (topic tone language : str)
  | call_statistics
  | call_platforms
  | call_templates (p : Platform).

Inductive Reply :=
  | reply_content (g : GeneratedContent)
  | reply_statistics (st : Statistics)
  | reply_platforms (l : list PlatformInfo)
  | reply_templates (l : list TemplateSummary).

Definition perform (c : Call) : Py Reply :=
  match c with
  | call_generate p ct topic tone language =>
      g ← generate_content p ct topic tone language; mret (reply_content g)
  | call_statistics => st ← get_statistics; mret (reply_statistics st)
  | call_platforms => l ← get_available_platforms; mret (reply_platforms l)
  | call_templates p =>
      l ← get_templates_for_platform p; mret (reply_templates l)
  end.

(** A client session: the calls one after the other, whether they return
    or raise. *)
Fixpoint run (cs : list Call) (s : State) : State :=
  match cs with
  | [] => s
  | c :: cs' => run cs' (perform c s).2
  end.

End Engine.

(** ** How a call binds its arguments *)

(** The parameters of a [def] after [self]: those without a default and
    those with one. *)
Record Signature := {
  required : list str;
  defaulted : list (str * str)
}.

Definition __init___signature : Signature := {|
  required := [];
  defaulted := []
|}.

Definition generate_content_signature : Signature := {|
  required := [u "platform"; u "content_type"; u "topic"];
  defaulted := [(u "tone", u "neutral"); (u "language", u "zh")]
|}.

Definition parameters (sg : Signature) : list str :=
  required sg ++ (defaulted sg).*1.

(** A call with [positional] positional arguments and the keyword arguments
    [keywords] binds (does not raise TypeError) when the positional ones fit,
    every keyword names a parameter not yet bound, no keyword is repeated and
    every required parameter is bound. *)
Definition binds (sg : Signature) (positional : nat) (keywords : list str)
  : bool :=
  bool_decide (positional ≤ length (parameters sg))
  && forallb (fun k => bool_decide (k ∈ drop positional (parameters sg)))
             keywords
  && bool_decide (NoDup keywords)
  && forallb (fun r => bool_decide
                         (r ∈ take positional (parameters sg) ++ keywords))
             (required sg).

(** ** Two readings of "whitespace stripped"

    The design document derives the first hashtag from the topic "with
    whitespace stripped". The two usual meanings are written down here, to be
    compared with what [_generate_hashtags] does. *)

(** [c.isspace()] *)
Definition isspace (c : N) : bool :=
  ((9 <=? c) && (c <=? 13) || (28 <=? c) && (c <=? 32)
   || (c =? 133) || (c =? 160) || (c =? 5760)
   || (8192 <=? c) && (c <=? 8202) || (c =? 8232) || (c =? 8233)
   || (c =? 8239) || (c =? 8287) || (c =? 12288))%N.

(** Every whitespace character taken out. *)
Definition spec_remove_whitespace (s : str) : str :=
  List.filter (fun c => negb (isspace c)) s.

Fixpoint lstrip (s : str) : str :=
  match s with
  | [] => []
  | c :: s' => if isspace c then lstrip s' else s
  end.

(** [s.strip()]: the whitespace at both ends taken off. *)
Definition spec_strip (s : str) : str :=
  reverse (lstrip (reverse (lstrip s))).

(** ** A process to run the engine in

    A hash, a clock and a generator for the examples. *)
Definition sample_md5 (encoded : list N) : str :=
  u "d41d8cd98f00b204e9800998ecf8427e".

Definition sample_now (n : nat) : Instant :=
  {| timestamp := "1700000000.0"; isoformat := "2023-11-14T22:13:20" |}.

Definition sample_state : State := fresh sample_now (λ n, n).

Definition sample_generate := generate_content sample_md5.

(** ** Kinds of calls *)

(** A [generate_content] call for a pair that has a template. *)
Definition generates (call : Call) : bool :=
  match call with
  | call_generate p c _ _ _ => bool_decide (is_Some (lookup_template p c))
  | _ => false
  end.

(** The pairs [TEMPLATES] gives a template to. *)
Definition registered_pairs : list (Platform * ContentType) :=
  [(BLOG, ARTICLE); (TWITTER, POST); (TWITTER, HEADLINE);
   (WEIBO, POST); (LINKEDIN, POST); (ZHIHU, ARTICLE)].

(** The pairs whose template selects one of the four bodies that are
    written out in full. *)
Definition rendered_pairs : list (Platform * ContentType) :=
  [(BLOG, ARTICLE); (TWITTER, POST); (WEIBO, POST); (LINKEDIN, POST)].



(** * Properties *)

(** ** Strings *)

Lemma startswith_app (sub rest : str) : startswith sub (sub ++ rest) = true.
Proof.
  induction sub as [|a sub IH]; [by destruct rest|].
  cbn. by rewrite N.eqb_refl, IH.
Qed.

Lemma startswith_inv (sub s : str) :
  startswith sub s = true → ∃ rest, s = sub ++ rest.
Proof.
  revert s. induction sub as [|a sub IH]; intros s H.
  - by exists s.
  - destruct s as [|b s]; [done|]. cbn in H.
    apply andb_true_iff in H as [Hab Hs].
    apply N.eqb_eq in Hab as ->.
    destruct (IH _ Hs) as [rest ->]. by exists rest.
Qed.

Lemma str_in_app_r (sub pre s : str) :
  str_in sub s = true → str_in sub (pre ++ s) = true.
Proof.
  intros H. induction pre as [|c pre IH]; [done|].
  cbn. rewrite IH. apply orb_true_r.
Qed.

Lemma str_in_startswith (sub s : str) :
  startswith sub s = true → str_in sub s = true.
Proof. intros H. destruct s; cbn; by rewrite H. Qed.

(** [sub in pre + sub + post] *)
Lemma str_in_infix (sub pre post : str) :
  str_in sub (pre ++ sub ++ post) = true.
Proof. apply str_in_app_r, str_in_startswith, startswith_app. Qed.

Lemma str_in_inv (sub s : str) :
  str_in sub s = true → ∃ pre post, s = pre ++ sub ++ post.
Proof.
  induction s as [|c s IH]; cbn; intros H.
  - rewrite orb_false_r in H. apply startswith_inv in H as [rest ->].
    by exists [], rest.
  - apply orb_true_iff in H as [H|H].
    + apply startswith_inv in H as [rest ->]. by exists [], rest.
    + destruct (IH H) as (pre & post & ->). by exists (c :: pre), post.
Qed.

Lemma str_in_app_l (sub s post : str) :
  str_in sub s = true → str_in sub (s ++ post) = true.
Proof.
  intros H. apply str_in_inv in H as (pre & post' & ->).
  rewrite <- !app_assoc. apply str_in_infix.
Qed.

(** A text that holds [##] holds [#]. *)
Lemma str_in_double_hash (s : str) :
  str_in (u "##") s = true → str_in (u "#") s = true.
Proof.
  intros H. apply str_in_inv in H as (pre & post & ->).
  change (u "##") with (u "#" ++ u "#").
  rewrite <- app_assoc. apply str_in_infix.
Qed.

(** Replacing the space by nothing keeps exactly the other characters. *)
Lemma replace_space (s : str) :
  replace (u " ") (u "") s = filter (λ c, c ≠ 32%N) s.
Proof.
  change (replace (u " ") (u "") s) with (replace_from [32%N] [] 0 s).
  induction s as [|c s IH]; [done|].
  cbn [replace_from startswith length]. rewrite andb_true_r.
  change (1 - 1) with 0. rewrite IH.
  destruct (N.eqb_spec 32 c) as [<-|Hne].
  - by rewrite filter_cons_False by (intros ?; done).
  - rewrite filter_cons_True by congruence. done.
Qed.

(** Looking for a one-character text is looking for the character. *)
Lemma str_in_char (c : N) (s : str) : str_in [c] s = bool_decide (c ∈ s).
Proof.
  induction s as [|d s IH]; [done|].
  cbn [str_in startswith]. rewrite IH, andb_true_r.
  destruct (N.eqb_spec c d) as [->|Hne]; cbn.
  - symmetry. apply bool_decide_eq_true. left.
  - destruct (bool_decide (c ∈ s)) eqn:E.
    + symmetry. apply bool_decide_eq_true. right.
      by apply bool_decide_eq_true in E.
    + symmetry. apply bool_decide_eq_false. intros Hin.
      apply elem_of_cons in Hin as [?|Hin]; [done|].
      by apply bool_decide_eq_false in E.
Qed.

(** ** Floats *)

(** Two floats that compare unequal are not the same float. *)
Ltac float_neq :=
  let H := fresh in
  intros H;
  match type of H with
  | ?a = ?b =>
      apply (f_equal (PrimFloat.eqb a)) in H; vm_compute in H; discriminate H
  end.

(** ** The quality score *)

(** The second test of the structure check adds nothing to the first. *)
Lemma hash_test (content : str) :
  str_in (u "#") content || str_in (u "##") content
  = bool_decide (35%N ∈ content).
Proof.
  rewrite <- (str_in_char 35 content). change [35%N] with (u "#").
  destruct (str_in (u "#") content) eqn:E1; [done|].
  destruct (str_in (u "##") content) eqn:E2; [|done].
  apply str_in_double_hash in E2. congruence.
Qed.

(** The score written with the three conditions as the design document
    words them. *)
Lemma calculate_quality_unfold (content : str) (t : ContentTemplate) :
  _calculate_quality content t =
  let len := Z.of_nat (length content) in
  let s1 := if (min_length t <=? len)%Z && (len <=? max_length t)%Z
            then (0.5 + 0.2)%float else 0.5%float in
  let s2 := if bool_decide (10%N ∈ content) then (s1 + 0.1)%float else s1 in
  let s3 := if bool_decide (35%N ∈ content) then (s2 + 0.1)%float else s2 in
  float_min 1.0 s3.
Proof.
  unfold _calculate_quality. cbv zeta.
  rewrite hash_test. change nl with [10%N]. by rewrite str_in_char.
Qed.

Lemma length_test (content : str) (t : ContentTemplate) :
  (min_length t <=? Z.of_nat (length content))%Z
  && (Z.of_nat (length content) <=? max_length t)%Z
  = bool_decide (min_length t ≤ Z.of_nat (length content) ≤ max_length t)%Z.
Proof.
  destruct (bool_decide _) eqn:E.
  - apply bool_decide_eq_true in E. apply andb_true_iff.
    split; apply Z.leb_le; lia.
  - apply bool_decide_eq_false in E. apply andb_false_iff.
    destruct (Z.leb_spec (min_length t) (Z.of_nat (length content)));
      [right; apply Z.leb_gt; lia | by left].
Qed.

(** Whatever the body and the template, the score is one of five floats. *)
Lemma calculate_quality_cases (content : str) (t : ContentTemplate) :
  _calculate_quality content t
  ∈ [0.5; 0.6; 0.7; 0.7999999999999999; 0.8999999999999999]%float.
Proof.
  rewrite calculate_quality_unfold. cbv zeta.
  destruct (_ && _), (bool_decide (10%N ∈ content)),
    (bool_decide (35%N ∈ content));
    vm_compute;
    repeat first [ apply list_elem_of_here | apply list_elem_of_further ].
Qed.

(** C2, as stated, fails: with the body in the length range and a line
    break but no [#], the three additions give 0.7999999999999999, which is
    none of 0.5, 0.6, 0.7, 0.8, 0.9, 1.0. *)
Lemma quality_outside_six_values :
  _calculate_quality (nl ++ replicate 99 97%N) twitter_post
  = 0.7999999999999999%float
  ∧ _calculate_quality (nl ++ replicate 99 97%N) twitter_post
    ∉ [0.5; 0.6; 0.7; 0.8; 0.9; 1.0]%float.
Proof.
  assert (_calculate_quality (nl ++ replicate 99 97%N) twitter_post
          = 0.7999999999999999%float) as -> by (by vm_compute).
  split; [done|].
  rewrite !elem_of_cons, elem_of_nil.
  intros [H|[H|[H|[H|[H|[H|[]]]]]]]; revert H; float_neq.
Qed.

(** C2, amended. For every body and template the score is, with the
    additions made in binary64 floating point in this order, 0.5, plus 0.2
    when the body's length in characters lies in the template's length
    range, plus 0.1 when the body holds a line break, plus 0.1 when it holds
    a [#], clamped to at most 1.0; and it is one of the five floats 0.5, 0.6,
    0.7, 0.7999999999999999, 0.8999999999999999. *)
Theorem calculate_quality_formula (content : str) (t : ContentTemplate) :
  _calculate_quality content t
  = float_min 1.0
      (0.5
       + (if bool_decide (min_length t ≤ Z.of_nat (length content)
                          ≤ max_length t)%Z then 0.2 else 0)
       + (if bool_decide (10%N ∈ content) then 0.1 else 0)
       + (if bool_decide (35%N ∈ content) then 0.1 else 0))%float
  ∧ _calculate_quality content t
    ∈ [0.5; 0.6; 0.7; 0.7999999999999999; 0.8999999999999999]%float.
Proof.
  split; [|apply calculate_quality_cases].
  rewrite calculate_quality_unfold. cbv zeta. rewrite length_test.
  by destruct (bool_decide (_ ≤ _ ≤ _)%Z),
    (bool_decide (10%N ∈ content)), (bool_decide (35%N ∈ content)).
Qed.

(** C3, as stated, fails: no body and template reach the score 1.0, so the
    six values are not all attained. *)
Lemma quality_one_not_attained :
  ¬ Forall (λ v, ∃ content t,
              template_invariant t ∧ _calculate_quality content t = v)
           [0.5; 0.6; 0.7; 0.8; 0.9; 1.0]%float.
Proof.
  intros H. apply Forall_forall with (x := 1.0%float) in H.
  - destruct H as (content & t & _ & H).
    pose proof (calculate_quality_cases content t) as Hc.
    rewrite H in Hc. rewrite !elem_of_cons, elem_of_nil in Hc.
    destruct Hc as [Hc|[Hc|[Hc|[Hc|[Hc|[]]]]]]; revert Hc; float_neq.
  - rewrite !elem_of_cons. tauto.
Qed.

Lemma twitter_post_invariant : template_invariant twitter_post.
Proof.
  split; [done|]. split; [done|].
  repeat constructor.
Qed.

(** C3, amended. The range of the score is exactly the five floats 0.5, 0.6,
    0.7, 0.7999999999999999 and 0.8999999999999999: each of the five is the
    score of some body against a template that satisfies the template
    invariant, and no score is anything else; 1.0 is never reached, so the
    clamp never acts, and neither are 0.8 and 0.9 themselves. *)
Theorem calculate_quality_range :
  Forall (λ v, ∃ content t,
            template_invariant t ∧ _calculate_quality content t = v)
         [0.5; 0.6; 0.7; 0.7999999999999999; 0.8999999999999999]%float
  ∧ ∀ content t,
      _calculate_quality content t
      ∈ [0.5; 0.6; 0.7; 0.7999999999999999; 0.8999999999999999]%float.
Proof.
  split; [|apply calculate_quality_cases].
  repeat apply Forall_cons_2; [| | | | |apply Forall_nil_2].
  - exists [], twitter_post. split; [apply twitter_post_invariant|done].
  - exists nl, twitter_post.
    split; [apply twitter_post_invariant|]. by vm_compute.
  - exists (nl ++ u "#"), twitter_post.
    split; [apply twitter_post_invariant|]. by vm_compute.
  - exists (nl ++ replicate 99 97%N), twitter_post.
    split; [apply twitter_post_invariant|]. by vm_compute.
  - exists (nl ++ u "#" ++ replicate 98 97%N), twitter_post.
    split; [apply twitter_post_invariant|]. by vm_compute.
Qed.

(** ** Variants *)

(** C4. A body of at most 500 characters has exactly two variants, the body
    with the question sentence and the body with the call-to-action
    sentence, in this order; a longer body has exactly three, the first being
    its first 300 characters followed by the ellipsis and the other two as
    before. *)
Theorem generate_variants_shape (content : str) (p : Platform) :
  (length content ≤ 500 →
     _generate_variants content p
     = [content ++ question_suffix; content ++ cta_suffix]
     ∧ length (_generate_variants content p) = 2)
  ∧ (500 < length content →
     _generate_variants content p
     = [take 300 content ++ ellipsis;
        content ++ question_suffix; content ++ cta_suffix]
     ∧ length (_generate_variants content p) = 3
     ∧ length (take 300 content) = 300
     ∧ take 300 content `prefix_of` content).
Proof.
  unfold _generate_variants.
  split; intros Hlen; case_decide; try lia; cbn [app length].
  - done.
  - repeat split; [rewrite length_take; lia | apply prefix_take].
Qed.

Lemma generate_variants_shape_witness :
  (_generate_variants (u "短文") BLOG
   = [u "短文" ++ question_suffix; u "短文" ++ cta_suffix]
   ∧ length (_generate_variants (u "短文") BLOG) = 2)
  ∧ length (_generate_variants (replicate 501 97%N) BLOG) = 3.
Proof.
  split.
  - apply (generate_variants_shape (u "短文") BLOG). vm_compute. lia.
  - apply (generate_variants_shape (replicate 501 97%N) BLOG).
    rewrite length_replicate. lia.
Defined.

(** ** Hashtags *)

(** C7, as stated, fails under both readings of "whitespace stripped": for
    the topic [a b<TAB>c] the first hashtag keeps the tab (so it is not the
    topic without its whitespace) and loses the inner space (so it is not
    the topic with its ends stripped). *)
Lemma hashtag_keeps_tab :
  let topic := u "a b" ++ [9%N] ++ u "c" in
  _generate_hashtags topic TWITTER !! 0 = Some (u "#ab" ++ [9%N] ++ u "c#")
  ∧ _generate_hashtags topic TWITTER !! 0
    ≠ Some (u "#" ++ spec_remove_whitespace topic ++ u "#")
  ∧ _generate_hashtags topic TWITTER !! 0
    ≠ Some (u "#" ++ spec_strip topic ++ u "#").
Proof. vm_compute. repeat split; discriminate. Qed.

(** C7, amended. For every topic and platform there are at most 5 hashtags,
    and the first is the topic with every space character (U+0020) taken out,
    other whitespace kept, between two [#]. *)
Theorem generate_hashtags_first (topic : str) (p : Platform) :
  length (_generate_hashtags topic p) ≤ 5
  ∧ _generate_hashtags topic p !! 0
    = Some (u "#" ++ filter (λ c, c ≠ 32%N) topic ++ u "#").
Proof.
  unfold _generate_hashtags. cbv zeta. rewrite replace_space.
  split.
  - rewrite length_take. lia.
  - by repeat case_decide.
Qed.

(** ** Statistics *)

Lemma get_statistics_returns (s : State) :
  ∃ st, get_statistics s = (Return st, s).
Proof.
  unfold get_statistics.
  destruct (quality_scores (self s)) as [|q qs]; by eexists.
Qed.

(** C8. On an engine that has generated nothing, [get_statistics] returns a
    total of 0, an average quality of 0 and two empty breakdowns; and in
    every state it returns, without raising and without changing the
    state. *)
Theorem get_statistics_fresh :
  (∀ c r,
     get_statistics (fresh c r)
     = (Return {| total_generated := 0; avg_quality := PyInt 0;
                  by_platform := ∅; by_type := ∅ |},
        fresh c r))
  ∧ ∀ s, ∃ st, get_statistics s = (Return st, s).
Proof.
  split; [done | apply get_statistics_returns].
Qed.

(** ** Generation *)

Lemma random_choice_returns {A} (seq : list A) (s : State) :
  seq ≠ [] → ∃ a, random_choice seq s = (Return a, draw s).
Proof.
  intros Hne. unfold random_choice.
  destruct (seq !! _) as [a|] eqn:E; [by exists a|].
  apply lookup_ge_None in E.
  assert (length seq ≠ 0) by (destruct seq; [done | cbn; lia]).
  pose proof (Nat.mod_upper_bound (random s (random_draws s)) (length seq)).
  lia.
Qed.

(** Title selection returns, after one draw from the generator. *)
Lemma generate_title_returns (topic : str) (c : ContentType) (s : State) :
  ∃ ttl, _generate_title topic c s = (Return ttl, draw s).
Proof.
  unfold _generate_title. cbv zeta.
  set (titles := list_to_map _ : gmap ContentType (list str)).
  assert (∀ c' l, titles !! c' = Some l → l ≠ []) as Hne.
  { intros c' l. subst titles. destruct c'; vm_compute; congruence. }
  unfold mbind, Py_bind, item.
  destruct (titles !! ARTICLE) as [fallback|] eqn:E;
    [|subst titles; vm_compute in E; discriminate E].
  change (@mret Py _ _ fallback s) with (Return fallback, s). cbv beta iota.
  apply random_choice_returns.
  destruct (titles !! c) as [l|] eqn:Ec; cbn [default]; eauto.
Qed.

(** Every registered template declares a variable. *)
Lemma registered_variables (p : Platform) (c : ContentType)
    (t : ContentTemplate) :
  lookup_template p c = Some t → ∃ v vs, variables t = v :: vs.
Proof. destruct p, c; vm_compute; intros [= <-]; eauto. Qed.

(** A character is in a text built from literals and unknown parts as soon
    as one of the literals holds it. *)
Ltac has_char :=
  first [ apply (bool_decide_unpack _); by vm_compute
        | apply elem_of_app; left; apply (bool_decide_unpack _); by vm_compute
        | apply elem_of_app; right; has_char ].

Ltac lacks_char := apply (bool_decide_unpack _); by vm_compute.

(** Synthesis does not read the prompt or the process. It returns one of
    the four bodies that are written out, which holds the topic, a line
    break and a [#], or it raises for the last branch. *)
Lemma simulate_generation_outcome (t : ContentTemplate) (topic : str) :
  (∃ b, (∀ prompt s, _simulate_generation prompt t topic s = (Return b, s))
        ∧ str_in topic b = true
        ∧ 10%N ∈ b
        ∧ 35%N ∈ b)
  ∨ (∀ prompt s, _simulate_generation prompt t topic s
                 = (Raise SyntaxError, s)).
Proof.
  unfold _simulate_generation.
  repeat case_match; [left..|by right]; eexists; (split; [done|]).
  - split; [apply str_in_infix|]. unfold guide_body. split; has_char.
  - split; [apply str_in_infix|]. unfold tweet_body. split; has_char.
  - split; [apply str_in_infix|]. unfold weibo_body. split; has_char.
  - split; [apply str_in_infix|]. unfold career_body. split; has_char.
Qed.

(** The template of a rendered pair and the body it selects. *)
Lemma rendered_template (p : Platform) (c : ContentType) :
  (p, c) ∈ rendered_pairs →
  ∃ t body_of,
    lookup_template p c = Some t
    ∧ (∀ prompt topic s,
         _simulate_generation prompt t topic s = (Return (body_of topic), s))
    ∧ (p, c, body_of)
      ∈ [(BLOG, ARTICLE, guide_body); (TWITTER, POST, tweet_body);
         (WEIBO, POST, weibo_body); (LINKEDIN, POST, career_body)].
Proof.
  unfold rendered_pairs. rewrite !elem_of_cons, elem_of_nil.
  intros [[= -> ->]|[[= -> ->]|[[= -> ->]|[[= -> ->]|[]]]]].
  - exists blog_article, guide_body.
    split; [by vm_compute|]. split; [done|].
    repeat first [ apply list_elem_of_here | apply list_elem_of_further ].
  - exists twitter_post, tweet_body.
    split; [by vm_compute|]. split; [done|].
    repeat first [ apply list_elem_of_here | apply list_elem_of_further ].
  - exists weibo_post, weibo_body.
    split; [by vm_compute|]. split; [done|].
    repeat first [ apply list_elem_of_here | apply list_elem_of_further ].
  - exists linkedin_post, career_body.
    split; [by vm_compute|]. split; [done|].
    repeat first [ apply list_elem_of_here | apply list_elem_of_further ].
Qed.

(** The text the clock shows can be encoded, and so can a platform value:
    what decides is the topic. *)
Lemma encodable_ascii_text (s : string) : encodable (ascii_text s).
Proof.
  unfold encodable, ascii_text. apply Forall_fmap, Forall_forall.
  intros a _. cbn. pose proof (N_ascii_bounded a) as Hb.
  unfold surrogate. split; [|lia].
  apply andb_false_iff. left. apply N.leb_gt. lia.
Qed.

Lemma encodable_raw (topic : str) (p : Platform) (ts : string) :
  encodable (topic ++ Platform_value p ++ ascii_text ts) ↔ encodable topic.
Proof.
  unfold encodable. rewrite !Forall_app.
  pose proof (encodable_ascii_text ts) as Hts.
  assert (encodable (Platform_value p)) as Hp
    by (destruct p; apply (bool_decide_unpack _); by vm_compute).
  unfold encodable in Hts, Hp. tauto.
Qed.

Section EngineProperties.

Variable md5_hexdigest : list N → str.

Local Abbreviation generate := (generate_content md5_hexdigest).
Local Abbreviation exec := (perform md5_hexdigest).
Local Abbreviation session := (run md5_hexdigest).

(** Without a template the call raises and the process is as before. *)
Lemma generate_content_raises (p : Platform) (c : ContentType)
    (topic tone language : str) (s : State) :
  lookup_template p c = None →
  generate p c topic tone language s
  = (Raise (ValueError (u "模板不存在: " ++ Platform_value p
                        ++ u "/" ++ ContentType_value c)), s).
Proof.
  intros H. unfold generate_content. by rewrite H.
Qed.

(** When the template selects the last branch the call raises at once. *)
Lemma generate_content_syntax_error (p : Platform) (c : ContentType)
    (t : ContentTemplate) (topic tone language : str) (s : State) :
  lookup_template p c = Some t →
  (∀ prompt s, _simulate_generation prompt t topic s
               = (Raise SyntaxError, s)) →
  generate p c topic tone language s = (Raise SyntaxError, s).
Proof.
  intros H Hsyn. unfold generate_content. rewrite H.
  destruct (registered_variables _ _ _ H) as (v & vs & ->).
  cbv beta iota zeta delta [mbind Py_bind mret Py_ret first_item].
  by rewrite Hsyn.
Qed.

(** When the topic cannot be encoded the call raises after one reading of
    the clock. *)
Lemma generate_content_encode_error (p : Platform) (c : ContentType)
    (t : ContentTemplate) (b topic tone language : str) (s : State) :
  lookup_template p c = Some t →
  (∀ prompt s, _simulate_generation prompt t topic s = (Return b, s)) →
  ¬ encodable topic →
  generate p c topic tone language s = (Raise UnicodeEncodeError, tick s).
Proof.
  intros H Hsyn Henc. unfold generate_content. rewrite H.
  destruct (registered_variables _ _ _ H) as (v & vs & ->).
  cbv beta iota zeta delta
    [mbind Py_bind mret Py_ret first_item _generate_id datetime_now encode].
  rewrite Hsyn. cbv beta iota.
  rewrite decide_False; [done|]. by rewrite encodable_raw.
Qed.

(** The content a successful call returns and the state it leaves. *)
Lemma generate_content_state (p : Platform) (c : ContentType)
    (t : ContentTemplate) (b topic tone language : str) (s : State) :
  lookup_template p c = Some t →
  (∀ prompt s, _simulate_generation prompt t topic s = (Return b, s)) →
  encodable topic →
  ∃ ttl,
    _generate_title topic c (tick s) = (Return ttl, draw (tick s))
    ∧ let g := {|
        id := take 8 (md5_hexdigest
                        (utf8_bytes
                           (topic ++ Platform_value p
                            ++ ascii_text
                                 (timestamp (clock s (clock_reads s))))));
        gc_platform := Platform_value p;
        gc_content_type := ContentType_value c;
        title := ttl;
        body := b;
        tags := _generate_tags topic p;
        hashtags := _generate_hashtags topic p;
        created_at := ascii_text (isoformat (clock s (S (clock_reads s))));
        quality_score := _calculate_quality b t;
        variants := _generate_variants b p
      |} in
      generate p c topic tone language s
      = (Return g,
         set_self
           {| generation_history := generation_history (self s) ++ [g];
              quality_scores :=
                quality_scores (self s) ++ [quality_score g] |}
           (tick (draw (tick s)))).
Proof.
  intros H Hsyn Henc. unfold generate_content. rewrite H.
  destruct (registered_variables _ _ _ H) as (v & vs & ->).
  destruct (generate_title_returns topic c (tick s)) as [ttl Ht].
  exists ttl. split; [done|].
  cbv beta iota zeta delta
    [mbind Py_bind mret Py_ret first_item _generate_id datetime_now encode].
  rewrite Hsyn. cbv beta iota.
  rewrite decide_True by (by rewrite encodable_raw).
  cbv beta iota. rewrite Ht.
  by cbv beta iota zeta delta [history_append scores_append].
Qed.

(** C1. When the pair has no registered template, [generate_content] raises
    the error that names the pair, whatever the topic, tone and language,
    and leaves the process, with the generation history and the score list,
    as it found it. *)
Theorem generate_content_unregistered (p : Platform) (c : ContentType)
    (topic tone language : str) (s : State) :
  lookup_template p c = None →
  ∃ msg s',
    generate p c topic tone language s = (Raise (ValueError msg), s')
    ∧ s' = s
    ∧ generation_history (self s') = generation_history (self s)
    ∧ quality_scores (self s') = quality_scores (self s).
Proof.
  intros H. eexists _, _.
  split; [by apply generate_content_raises|done].
Qed.

(** C6, amended. For the pairs (blog, article), (twitter, post),
    (weibo, post) and (linkedin, post) and a topic that can be encoded,
    [generate_content] returns a content whose body holds the topic; for
    these pairs and a topic that cannot be encoded (one with a lone
    surrogate) it raises UnicodeEncodeError and returns nothing. *)
Theorem generate_content_body_has_topic (p : Platform) (c : ContentType)
    (topic tone language : str) (s : State) :
  (p, c) ∈ rendered_pairs →
  (encodable topic →
   ∃ g s',
     generate p c topic tone language s = (Return g, s')
     ∧ str_in topic (body g) = true
     ∧ ∃ before after, body g = before ++ topic ++ after)
  ∧ (¬ encodable topic →
     generate p c topic tone language s
     = (Raise UnicodeEncodeError, tick s)).
Proof.
  intros Hp.
  destruct (rendered_template p c Hp) as (t & body_of & Ht & Hsyn & _).
  split; intros Henc.
  - destruct (generate_content_state p c t (body_of topic) topic tone
                language s Ht (λ prompt, Hsyn prompt topic) Henc)
      as (ttl & _ & Hg).
    cbv zeta in Hg. eexists _, _. split; [exact Hg|]. cbn [body].
    assert (str_in topic (body_of topic) = true) as Hin.
    { destruct (simulate_generation_outcome t topic)
        as [(b & Hb & Hin & _)|Hraise].
      - specialize (Hb [] s). rewrite Hsyn in Hb. by injection Hb as ->.
      - specialize (Hraise [] s). by rewrite Hsyn in Hraise. }
    split; [done | by apply str_in_inv].
  - by eapply generate_content_encode_error.
Qed.

(** Two calls that differ in tone, language and state have the same kind of
    outcome. *)
Lemma generate_content_outcomes (p : Platform) (c : ContentType)
    (topic tone1 language1 tone2 language2 : str) (s1 s2 : State) :
  match generate p c topic tone1 language1 s1,
        generate p c topic tone2 language2 s2 with
  | (Return g1, s1'), (Return g2, s2') =>
      body g1 = body g2
      ∧ quality_score g1 = quality_score g2
      ∧ random_draws s1' = S (random_draws s1)
      ∧ random_draws s2' = S (random_draws s2)
  | (Raise e1, _), (Raise e2, _) => e1 = e2
  | _, _ => False
  end.
Proof.
  destruct (lookup_template p c) as [t|] eqn:E;
    [|by rewrite !generate_content_raises].
  destruct (simulate_generation_outcome t topic) as [(b & Hb & _)|Hraise];
    [|by rewrite !(generate_content_syntax_error p c t)].
  destruct (decide (encodable topic)) as [Henc|Henc];
    [|by rewrite !(generate_content_encode_error p c t b)].
  destruct (generate_content_state p c t b topic tone1 language1 s1
              E Hb Henc) as (ttl1 & _ & ->).
  destruct (generate_content_state p c t b topic tone2 language2 s2
              E Hb Henc) as (ttl2 & _ & ->).
  done.
Qed.

(** C10, amended. Two calls that differ only in tone and language, made in
    any two states, have the same outcome: both raise the same error, or
    both return, with the same body and the same quality score. For the pairs
    (blog, article), (twitter, post), (weibo, post) and (linkedin, post) and
    a topic that can be encoded they return. *)
Theorem generate_content_ignores_tone_language (p : Platform)
    (c : ContentType) (topic tone1 language1 tone2 language2 : str)
    (s1 s2 : State) :
  match generate p c topic tone1 language1 s1,
        generate p c topic tone2 language2 s2 with
  | (Return g1, _), (Return g2, _) =>
      body g1 = body g2 ∧ quality_score g1 = quality_score g2
  | (Raise e1, _), (Raise e2, _) => e1 = e2
  | _, _ => False
  end
  ∧ ((p, c) ∈ rendered_pairs → encodable topic →
     ∃ g1 s1' g2 s2',
       generate p c topic tone1 language1 s1 = (Return g1, s1')
       ∧ generate p c topic tone2 language2 s2 = (Return g2, s2')
       ∧ body g1 = body g2
       ∧ quality_score g1 = quality_score g2).
Proof.
  pose proof (generate_content_outcomes p c topic tone1 language1
                tone2 language2 s1 s2) as Hsame.
  split.
  - destruct (generate p c topic tone1 language1 s1) as [[g1|e1] s1'],
      (generate p c topic tone2 language2 s2) as [[g2|e2] s2'];
      try done. by destruct Hsame as (? & ? & _).
  - intros Hp Henc.
    destruct (rendered_template p c Hp) as (t & body_of & Ht & Hsyn & _).
    destruct (generate_content_state p c t (body_of topic) topic tone1
                language1 s1 Ht (λ prompt, Hsyn prompt topic) Henc)
      as (ttl1 & _ & Hg1).
    destruct (generate_content_state p c t (body_of topic) topic tone2
                language2 s2 Ht (λ prompt, Hsyn prompt topic) Henc)
      as (ttl2 & _ & Hg2).
    cbv zeta in Hg1, Hg2. eexists _, _, _, _.
    split; [exact Hg1|]. split; [exact Hg2|]. done.
Qed.


Lemma bind_state {A B} (m : Py A) (k : A → Py B) (s : State) :
  (m s).2 = s → (∀ a, (k a s).2 = s) → ((m ≫= k) s).2 = s.
Proof.
  unfold mbind, Py_bind. destruct (m s) as [[a|e] s']; cbn; intros ->; auto.
Qed.

Lemma comprehension_state {A B} (f : A → Py B) (xs : list A) (s : State) :
  (∀ x, (f x s).2 = s) → (comprehension f xs s).2 = s.
Proof.
  intros Hf. induction xs as [|x xs IH]; [done|].
  cbn [comprehension]. apply bind_state; [done|].
  intros y. apply bind_state; [done|]. done.
Qed.

(** What a [generate_content] call leaves: the process as it was, the
    process with one more reading of the clock, or one more content. *)
Lemma generate_content_leaves (p : Platform) (c : ContentType)
    (topic tone language : str) (s : State) :
  (generate p c topic tone language s).2 = s
  ∨ (generate p c topic tone language s).2 = tick s
  ∨ ∃ g, (generate p c topic tone language s).2
         = set_self
             {| generation_history := generation_history (self s) ++ [g];
                quality_scores :=
                  quality_scores (self s) ++ [quality_score g] |}
             (tick (draw (tick s))).
Proof.
  destruct (lookup_template p c) as [t|] eqn:E;
    [|left; by rewrite generate_content_raises].
  destruct (simulate_generation_outcome t topic) as [(b & Hb & _)|Hraise];
    [|left; by rewrite (generate_content_syntax_error p c t)].
  destruct (decide (encodable topic)) as [Henc|Henc];
    [|right; left; by rewrite (generate_content_encode_error p c t b)].
  destruct (generate_content_state p c t b topic tone language s
              E Hb Henc) as (ttl & _ & ->).
  right; right. by eexists.
Qed.

(** A call leaves the engine's two lists alone or appends one content and
    its score. *)
Lemma perform_self (call : Call) (s : State) :
  self (exec call s).2 = self s
  ∨ ∃ g, self (exec call s).2
         = {| generation_history := generation_history (self s) ++ [g];
              quality_scores := quality_scores (self s) ++ [quality_score g]
           |}.
Proof.
  destruct call as [p c topic tone language| | |p]; unfold perform.
  - assert (((generate p c topic tone language
                ≫= λ g, mret (reply_content g)) s).2
            = (generate p c topic tone language s).2) as ->.
    { unfold mbind, Py_bind.
      by destruct (generate p c topic tone language s) as [[g|e] s']. }
    destruct (generate_content_leaves p c topic tone language s)
      as [->|[->|[g ->]]]; [by left..|].
    right. by exists g.
  - left. destruct (get_statistics_returns s) as [st Hst].
    unfold mbind, Py_bind. by rewrite Hst.
  - by left.
  - left. f_equal. apply bind_state; [|done].
    apply comprehension_state. by intros [ct t].
Qed.

Lemma session_app (cs more : list Call) (s : State) :
  session (cs ++ more) s = session more (session cs s).
Proof.
  revert s. induction cs as [|c cs IH]; intros s; [done|]. cbn. apply IH.
Qed.

Lemma session_parallel (cs : list Call) (s : State) :
  quality_scores (self s) = quality_score <$> generation_history (self s) →
  quality_scores (self (session cs s))
  = quality_score <$> generation_history (self (session cs s)).
Proof.
  revert s. induction cs as [|c cs IH]; intros s Hs; [done|].
  cbn [run]. apply IH.
  destruct (perform_self c s) as [->|[g ->]]; [done|].
  cbn. by rewrite fmap_app, Hs.
Qed.

Lemma session_extends (cs : list Call) (s : State) :
  generation_history (self s)
    `prefix_of` generation_history (self (session cs s))
  ∧ quality_scores (self s) `prefix_of` quality_scores (self (session cs s)).
Proof.
  revert s. induction cs as [|c cs IH]; intros s; [done|].
  cbn [run]. destruct (IH (exec c s).2) as [Hh Hq].
  destruct (perform_self c s) as [E|[g E]]; rewrite E in Hh, Hq; [done|].
  cbn in Hh, Hq. split.
  - etrans; [|exact Hh]. by apply prefix_app_r.
  - etrans; [|exact Hq]. by apply prefix_app_r.
Qed.

(** C9. Start from a new engine and make any calls, then any further calls,
    returning or raising. The history and the score list after the further
    calls extend those before them (nothing is changed or removed), they
    have the same length, and the score at each index is the quality score
    of the content at that index. *)
Theorem history_and_scores_parallel (now : nat → Instant) (r : nat → nat)
    (cs more : list Call) :
  let before := self (session cs (fresh now r)) in
  let after := self (session (cs ++ more) (fresh now r)) in
  generation_history before `prefix_of` generation_history after
  ∧ quality_scores before `prefix_of` quality_scores after
  ∧ length (generation_history after) = length (quality_scores after)
  ∧ ∀ i, quality_scores after !! i
         = quality_score <$> generation_history after !! i.
Proof.
  cbv zeta. rewrite session_app.
  destruct (session_extends more (session cs (fresh now r))) as [Hh Hq].
  assert (quality_scores (self (session more (session cs (fresh now r))))
          = quality_score
              <$> generation_history
                    (self (session more (session cs (fresh now r)))))
    as Hpar by (rewrite <- session_app; by apply session_parallel).
  repeat split; try done.
  - by rewrite Hpar, length_fmap.
  - intros i. by rewrite Hpar, list_lookup_fmap.
Qed.

End EngineProperties.

(** ** The engine at work *)

(** C1 at the pair the design document names. *)
Lemma generate_content_unregistered_witness :
  lookup_template INSTAGRAM ARTICLE = None
  ∧ ∃ msg s',
      sample_generate INSTAGRAM ARTICLE (u "Async Patterns") (u "neutral")
        (u "zh") sample_state = (Raise (ValueError msg), s')
      ∧ s' = sample_state
      ∧ generation_history (self s') = generation_history (self sample_state)
      ∧ quality_scores (self s') = quality_scores (self sample_state).
Proof.
  split; [by vm_compute|].
  apply (generate_content_unregistered sample_md5 INSTAGRAM ARTICLE).
  by vm_compute.
Defined.

(** C6, as stated, fails: a topic can hold a lone surrogate, the identifier
    cannot be made of it, and the call for a blog article raises after one
    reading of the clock instead of returning a content. *)
Lemma generate_content_surrogate_topic :
  sample_generate BLOG ARTICLE [55296%N] (u "neutral") (u "zh") sample_state
  = (Raise UnicodeEncodeError, tick sample_state)
  ∧ ¬ ∃ g s',
        sample_generate BLOG ARTICLE [55296%N] (u "neutral") (u "zh")
          sample_state = (Return g, s')
        ∧ str_in [55296%N] (body g) = true.
Proof.
  assert (sample_generate BLOG ARTICLE [55296%N] (u "neutral") (u "zh")
            sample_state = (Raise UnicodeEncodeError, tick sample_state))
    as -> by (by vm_compute).
  split; [done|]. by intros (g & s' & [=] & _).
Qed.

(** C6 for a blog article. *)
Lemma generate_content_body_has_topic_witness :
  (BLOG, ARTICLE) ∈ rendered_pairs
  ∧ encodable (u "Async Patterns")
  ∧ ∃ g s',
      sample_generate BLOG ARTICLE (u "Async Patterns") (u "neutral")
        (u "zh") sample_state = (Return g, s')
      ∧ str_in (u "Async Patterns") (body g) = true
      ∧ ∃ before after, body g = before ++ u "Async Patterns" ++ after.
Proof.
  assert ((BLOG, ARTICLE) ∈ rendered_pairs) as Hp
    by (apply (bool_decide_unpack _); by vm_compute).
  assert (encodable (u "Async Patterns")) as Henc
    by (apply (bool_decide_unpack _); by vm_compute).
  split; [done|]. split; [done|].
  by apply (generate_content_body_has_topic sample_md5 BLOG ARTICLE
              (u "Async Patterns") (u "neutral") (u "zh") sample_state Hp).
Defined.

(** C10, as stated, fails: for a topic with a lone surrogate neither of the
    two calls produces a body or a score; both raise. *)
Lemma tone_language_surrogate_topic :
  sample_generate WEIBO POST (u "咖啡" ++ [56320%N]) (u "neutral") (u "zh")
    sample_state = (Raise UnicodeEncodeError, tick sample_state)
  ∧ sample_generate WEIBO POST (u "咖啡" ++ [56320%N]) (u "formal") (u "en")
      sample_state = (Raise UnicodeEncodeError, tick sample_state)
  ∧ ¬ ∃ g1 s1' g2 s2',
        sample_generate WEIBO POST (u "咖啡" ++ [56320%N]) (u "neutral")
          (u "zh") sample_state = (Return g1, s1')
        ∧ sample_generate WEIBO POST (u "咖啡" ++ [56320%N]) (u "formal")
            (u "en") sample_state = (Return g2, s2')
        ∧ body g1 = body g2
        ∧ quality_score g1 = quality_score g2.
Proof.
  assert (∀ tone language,
            sample_generate WEIBO POST (u "咖啡" ++ [56320%N]) tone language
              sample_state = (Raise UnicodeEncodeError, tick sample_state))
    as Hraise.
  { intros tone language.
    eapply (generate_content_encode_error sample_md5 WEIBO POST weibo_post
              (weibo_body (u "咖啡" ++ [56320%N])));
      [by vm_compute | done |].
    intros H. apply (bool_decide_pack _) in H. by vm_compute in H. }
  rewrite !Hraise. split; [done|]. split; [done|].
  by intros (g1 & s1' & g2 & s2' & [=] & _).
Qed.

(** C10 for Chinese against English. *)
Lemma generate_content_ignores_tone_language_witness :
  (BLOG, ARTICLE) ∈ rendered_pairs
  ∧ encodable (u "Async Patterns")
  ∧ ∃ g1 s1' g2 s2',
      sample_generate BLOG ARTICLE (u "Async Patterns") (u "neutral")
        (u "zh") sample_state = (Return g1, s1')
      ∧ sample_generate BLOG ARTICLE (u "Async Patterns") (u "formal")
          (u "en") sample_state = (Return g2, s2')
      ∧ body g1 = body g2
      ∧ quality_score g1 = quality_score g2.
Proof.
  assert ((BLOG, ARTICLE) ∈ rendered_pairs) as Hp
    by (apply (bool_decide_unpack _); by vm_compute).
  assert (encodable (u "Async Patterns")) as Henc
    by (apply (bool_decide_unpack _); by vm_compute).
  split; [done|]. split; [done|].
  by apply (generate_content_ignores_tone_language sample_md5 BLOG ARTICLE
              (u "Async Patterns") (u "neutral") (u "zh") (u "formal")
              (u "en") sample_state sample_state).
Defined.


(** The calls the design document lists do bind. *)
Example usual_calls_bind :
  binds __init___signature 0 [] = true
  ∧ binds generate_content_signature 3 [] = true
  ∧ binds generate_content_signature 5 [] = true
  ∧ binds generate_content_signature 3 [u "language"] = true
  ∧ binds generate_content_signature 2 [] = false.
Proof. by vm_compute. Qed.

(** Every registered template satisfies the template invariant. *)
Lemma registered_invariant (p : Platform) (c : ContentType)
    (t : ContentTemplate) :
  lookup_template p c = Some t → template_invariant t.
Proof.
  destruct p, c; vm_compute; intros [= <-];
    (split; [discriminate|]); (split; [discriminate|]); repeat constructor.
Qed.

(** The tweet about a two-word topic: length, score, variants and hashtags. *)
Example tweet_sample :
  ∃ g s',
    sample_generate TWITTER POST (u "a b") (u "neutral") (u "zh")
      sample_state = (Return g, s')
    ∧ length (body g) = 107
    ∧ quality_score g = 0.8999999999999999%float
    ∧ length (variants g) = 2
    ∧ hashtags g = [u "#ab#"; u "#Tech"; u "#Innovation"; u "#AI"]
    ∧ title g = u "关于a b的思考".
Proof. eexists _, _. split; [by vm_compute|]. by vm_compute. Qed.

(** One blog article and one tweet: two contents, one per platform. *)
Example two_calls_counted :
  let s :=
    run sample_md5
      [call_generate BLOG ARTICLE (u "Async Patterns") (u "neutral") (u "zh");
       call_generate TWITTER POST (u "Async Patterns") (u "neutral") (u "zh")]
      sample_state in
  ∃ st,
    get_statistics s = (Return st, s)
    ∧ total_generated st = 2
    ∧ by_platform st !! u "blog" = Some 1
    ∧ by_platform st !! u "twitter" = Some 1
    ∧ avg_quality st = PyFloat 0.7999999999999999.
Proof. eexists. split; [by vm_compute|]. by vm_compute. Qed.

(** [get_templates_for_platform] raises for a platform that has a template
    and returns the empty list for one that has none. *)
Example templates_for_platform_sample :
  (get_templates_for_platform BLOG sample_state).1 = Raise AttributeError
  ∧ (get_templates_for_platform MEDIUM sample_state).1 = Return [].
Proof. by vm_compute. Qed.

(** * Further properties of the engine *)

(** ** The registry *)

(** X1. The pairs with a template are exactly the six of [registered_pairs];
    for each of the other 43 pairs [generate_content] raises the error that
    names the pair and leaves the process as it was. *)
Theorem registered_pairs_exact (md5_hexdigest : list N → str)
    (p : Platform) (c : ContentType) :
  (is_Some (lookup_template p c) ↔ (p, c) ∈ registered_pairs)
  ∧ ((p, c) ∉ registered_pairs →
     ∀ topic tone language s,
       generate_content md5_hexdigest p c topic tone language s
       = (Raise (ValueError (u "模板不存在: " ++ Platform_value p
                             ++ u "/" ++ ContentType_value c)), s)).
Proof.
  assert (is_Some (lookup_template p c) ↔ (p, c) ∈ registered_pairs) as Hiff.
  { split.
    - intros [t Ht].
      destruct p, c; vm_compute in Ht;
        first [ discriminate Ht
              | apply (bool_decide_unpack _); by vm_compute ].
    - intros Hin. apply (bool_decide_pack _) in Hin.
      destruct p, c;
        first [ by vm_compute in Hin | eexists; by vm_compute ]. }
  split; [done|].
  intros Hout topic tone language s. apply generate_content_raises.
  destruct (lookup_template p c) as [t|] eqn:E; [|done].
  destruct Hout. apply Hiff. by eexists.
Qed.

(** X2. A template found under a pair carries that pair in its own
    [platform] and [content_type] fields, has a positive and non-empty length
    range, declares exactly one variable, whose placeholder its prompt holds
    exactly once, and gives two examples. *)
Theorem registry_well_formed (p : Platform) (c : ContentType)
    (t : ContentTemplate) :
  lookup_template p c = Some t →
  platform t = Platform_value p
  ∧ content_type t = ContentType_value c
  ∧ (0 < min_length t ≤ max_length t)%Z
  ∧ (∃ v, variables t = [v] ∧ count (u "{" ++ v ++ u "}") (prompt t) = 1)
  ∧ length (examples t) = 2.
Proof.
  destruct p, c; vm_compute; intros [= <-];
    repeat split; try discriminate; by eexists.
Qed.

Lemma registry_well_formed_witness :
  platform zhihu_article = Platform_value ZHIHU
  ∧ content_type zhihu_article = ContentType_value ARTICLE
  ∧ (0 < min_length zhihu_article ≤ max_length zhihu_article)%Z
  ∧ (∃ v, variables zhihu_article = [v]
          ∧ count (u "{" ++ v ++ u "}") (prompt zhihu_article) = 1)
  ∧ length (examples zhihu_article) = 2.
Proof.
  apply (registry_well_formed ZHIHU ARTICLE zhihu_article). by vm_compute.
Defined.

(** X3. [get_templates_for_platform] never lists a template: for a platform
    without templates it returns the empty list, and for a platform with at
    least one it raises AttributeError, the keys of the inner dict being
    strings, which have no [value]. Either way the process is unchanged. *)
Theorem get_templates_for_platform_outcome (p : Platform) (s : State) :
  (get_templates_for_platform p s = (Return [], s)
   ∧ ∀ c, lookup_template p c = None)
  ∨ (get_templates_for_platform p s = (Raise AttributeError, s)
     ∧ ∃ c t, lookup_template p c = Some t).
Proof.
  destruct p; [right|right|left|right|right|right|left];
    (split; [by vm_compute|]);
    first [ by intros []; vm_compute
          | exists POST; eexists; by vm_compute
          | exists ARTICLE; eexists; by vm_compute ].
Qed.

(** X4. [get_available_platforms] lists the seven platforms once each, in
    the order of the enumeration, with the platform's value as id; ids and
    names are pairwise distinct and no entry shows the default icon. *)
Theorem get_available_platforms_listing (s : State) :
  ∃ l, get_available_platforms s = (Return l, s)
       ∧ pi_id <$> l = Platform_value <$> all_platforms
       ∧ pi_name <$> l = Platform_name <$> all_platforms
       ∧ NoDup (pi_id <$> l)
       ∧ NoDup (pi_name <$> l)
       ∧ Forall (λ i, pi_icon i ≠ u "📄") l
       ∧ ∀ p q, Platform_value p = Platform_value q → p = q.
Proof.
  eexists. split; [reflexivity|]. repeat split.
  - apply (bool_decide_unpack _). by vm_compute.
  - apply (bool_decide_unpack _). by vm_compute.
  - repeat constructor; by vm_compute.
  - intros p q. destruct p, q; vm_compute; congruence.
Qed.

(** ** Derived metadata *)

Lemma str_in_self (s : str) : str_in s s = true.
Proof.
  apply str_in_startswith. rewrite <- (app_nil_r s) at 2.
  apply startswith_app.
Qed.

Lemma str_in_suffix (sub pre : str) : str_in sub (pre ++ sub) = true.
Proof. apply str_in_app_r, str_in_self. Qed.

Lemma str_in_prefix (sub post : str) : str_in sub (sub ++ post) = true.
Proof. apply str_in_startswith, startswith_app. Qed.

(** X5. There are four hashtags for Twitter and Instagram and one for every
    other platform, so the cut at five never removes any; each hashtag
    starts with [#] and none holds a space. *)
Theorem generate_hashtags_shape (topic : str) (p : Platform) :
  length (_generate_hashtags topic p)
  = (if bool_decide (p ∈ [TWITTER; INSTAGRAM]) then 4 else 1)
  ∧ Forall (λ h, ∃ rest, h = 35%N :: rest) (_generate_hashtags topic p)
  ∧ Forall (λ h, 32%N ∉ h) (_generate_hashtags topic p).
Proof.
  unfold _generate_hashtags. cbv zeta. rewrite replace_space.
  assert (32%N ∉ u "#" ++ filter (λ c, c ≠ 32%N) topic ++ u "#") as Hfirst.
  { rewrite !elem_of_app, list_elem_of_filter.
    intros [H|[[H _]|H]]; [|done|]; revert H; lacks_char. }
  destruct p; cbn [app take bool_decide]; (split; [by vm_compute|]);
    (split; repeat constructor; try (by eexists); try done; lacks_char).
Qed.

(** X6. There are three tags for Twitter, Weibo and Zhihu and one for every
    other platform. Twitter and Zhihu end with the topic without its spaces,
    Weibo starts with the topic as it is between two [#], and the others
    have the topic as it is for their only tag. *)
Theorem generate_tags_shape (topic : str) (p : Platform) :
  length (_generate_tags topic p)
  = (if bool_decide (p ∈ [TWITTER; WEIBO; ZHIHU]) then 3 else 1)
  ∧ match p with
    | TWITTER | ZHIHU =>
        last (_generate_tags topic p) = Some (filter (λ c, c ≠ 32%N) topic)
    | WEIBO =>
        head (_generate_tags topic p) = Some ([35%N] ++ topic ++ [35%N])
    | _ => _generate_tags topic p = [topic]
    end.
Proof.
  unfold _generate_tags. cbv zeta. rewrite replace_space.
  by destruct p.
Qed.

Lemma random_choice_member {A} (seq : list A) (s : State) :
  seq ≠ [] → ∃ a, a ∈ seq ∧ random_choice seq s = (Return a, draw s).
Proof.
  intros Hne. unfold random_choice.
  destruct (seq !! _) as [a|] eqn:E.
  - exists a. split; [by eapply list_elem_of_lookup_2|done].
  - apply lookup_ge_None in E.
    assert (length seq ≠ 0) by (destruct seq; [done | cbn; lia]).
    pose proof (Nat.mod_upper_bound (random s (random_draws s)) (length seq)).
    lia.
Qed.

(** X7. Whatever the content type and the generator, title selection
    returns a title that holds the topic, after one draw; and a content type
    without a list of its own (caption, product description, headline,
    summary) gets what an article gets in the same state. *)
Theorem generate_title_has_topic (topic : str) (c : ContentType) (s : State) :
  (∃ ttl, _generate_title topic c s = (Return ttl, draw s)
          ∧ str_in topic ttl = true)
  ∧ (c ∉ [ARTICLE; POST; AD_COPY] →
     _generate_title topic c s = _generate_title topic ARTICLE s).
Proof.
  split.
  - unfold _generate_title. cbv zeta.
    set (titles := list_to_map _ : gmap ContentType (list str)).
    assert (∀ c' l, titles !! c' = Some l →
                    l ≠ [] ∧ Forall (λ t, str_in topic t = true) l) as Hall.
    { intros c' l Hl. subst titles. apply elem_of_list_to_map_2 in Hl.
      rewrite !elem_of_cons, elem_of_nil in Hl.
      destruct Hl as [Hl|[Hl|[Hl|[]]]];
        apply (f_equal snd) in Hl; cbn [snd] in Hl; subst l;
        (split; [discriminate|]);
        repeat constructor;
        first [ apply str_in_infix | apply str_in_prefix
              | apply str_in_suffix ]. }
    unfold mbind, Py_bind, item.
    destruct (titles !! ARTICLE) as [fallback|] eqn:E;
      [|subst titles; vm_compute in E; discriminate E].
    change (@mret Py _ _ fallback s) with (Return fallback, s).
    cbv beta iota.
    destruct (Hall _ _ E) as [Hne Hin].
    assert (default fallback (titles !! c) ≠ []
            ∧ Forall (λ t, str_in topic t = true)
                     (default fallback (titles !! c))) as [Hne' Hin'].
    { destruct (titles !! c) as [l|] eqn:Ec; cbn [default]; eauto. }
    destruct (random_choice_member _ s Hne') as (ttl & Hmem & ->).
    exists ttl. split; [done|].
    by eapply Forall_forall in Hin'.
  - intros Hc.
    destruct c; first [ reflexivity | exfalso; apply Hc; set_solver ].
Qed.

Lemma generate_title_has_topic_witness :
  _generate_title (u "AI") HEADLINE sample_state
  = _generate_title (u "AI") ARTICLE sample_state.
Proof.
  apply (generate_title_has_topic (u "AI") HEADLINE sample_state).
  apply (bool_decide_unpack _). by vm_compute.
Defined.

(** ** The bodies *)

(** The length of a literal is a number. *)
Ltac literal_lengths :=
  repeat match goal with
         | |- context [length (u ?lit)] =>
             let n := eval vm_compute in (length (u lit)) in
             change (length (u lit)) with n
         end.

Lemma guide_body_length (topic : str) :
  length (guide_body topic) = 682 + 13 * length topic.
Proof. unfold guide_body. rewrite !length_app. literal_lengths. lia. Qed.

Lemma tweet_body_length (topic : str) :
  length (tweet_body topic)
  = 99 + 2 * length topic + length (filter (λ c, c ≠ 32%N) topic).
Proof.
  unfold tweet_body. rewrite replace_space, !length_app.
  literal_lengths. lia.
Qed.

Lemma weibo_body_length (topic : str) :
  length (weibo_body topic) = 94 + 3 * length topic.
Proof. unfold weibo_body. rewrite !length_app. literal_lengths. lia. Qed.

Lemma career_body_length (topic : str) :
  length (career_body topic) = 182 + 5 * length topic.
Proof. unfold career_body. rewrite !length_app. literal_lengths. lia. Qed.

(** X8. The length of each canned body, in characters, from the length of
    the topic: the guide has 682 characters of its own and the topic 13
    times, the tweet 99 and the topic twice plus once without its spaces,
    the Weibo post 94 and the topic three times, the career post 182 and
    the topic five times. So a guide is always longer than 500 characters
    and always has its three variants. *)
Theorem body_lengths (topic : str) (p : Platform) :
  length (guide_body topic) = 682 + 13 * length topic
  ∧ length (tweet_body topic)
    = 99 + 2 * length topic + length (filter (λ c, c ≠ 32%N) topic)
  ∧ length (weibo_body topic) = 94 + 3 * length topic
  ∧ length (career_body topic) = 182 + 5 * length topic
  ∧ length (_generate_variants (guide_body topic) p) = 3.
Proof.
  repeat split;
    auto using guide_body_length, tweet_body_length, weibo_body_length,
      career_body_length.
  unfold _generate_variants. pose proof (guide_body_length topic).
  case_decide; [done|lia].
Qed.


(** A body with a line break and a [#] scores 0.7, or 0.8999999999999999
    when its length is in the range of the template. *)
Lemma structured_body_score (b : str) (t : ContentTemplate) :
  10%N ∈ b → 35%N ∈ b →
  _calculate_quality b t
  = if bool_decide (min_length t ≤ Z.of_nat (length b) ≤ max_length t)%Z
    then 0.8999999999999999%float else 0.7%float.
Proof.
  intros Hnl Hhash. rewrite calculate_quality_unfold. cbv zeta.
  rewrite (bool_decide_eq_true_2 _ Hnl), (bool_decide_eq_true_2 _ Hhash).
  rewrite length_test. by case_bool_decide.
Qed.

Section GeneratedContents.

Variable md5_hexdigest : list N → str.

Local Abbreviation generate := (generate_content md5_hexdigest).
Local Abbreviation exec := (perform md5_hexdigest).
Local Abbreviation session := (run md5_hexdigest).

(** What a call returns for a rendered pair and a topic that can be
    encoded, and what it leaves. *)
Lemma generate_content_returns (p : Platform) (c : ContentType)
    (topic tone language : str) (s : State) :
  (p, c) ∈ rendered_pairs →
  encodable topic →
  ∃ t body_of ttl,
    lookup_template p c = Some t
    ∧ (p, c, body_of)
      ∈ [(BLOG, ARTICLE, guide_body); (TWITTER, POST, tweet_body);
         (WEIBO, POST, weibo_body); (LINKEDIN, POST, career_body)]
    ∧ 10%N ∈ body_of topic
    ∧ 35%N ∈ body_of topic
    ∧ let g := {|
        id := take 8 (md5_hexdigest
                        (utf8_bytes
                           (topic ++ Platform_value p
                            ++ ascii_text
                                 (timestamp (clock s (clock_reads s))))));
        gc_platform := Platform_value p;
        gc_content_type := ContentType_value c;
        title := ttl;
        body := body_of topic;
        tags := _generate_tags topic p;
        hashtags := _generate_hashtags topic p;
        created_at := ascii_text (isoformat (clock s (S (clock_reads s))));
        quality_score := _calculate_quality (body_of topic) t;
        variants := _generate_variants (body_of topic) p
      |} in
      generate p c topic tone language s
      = (Return g,
         set_self
           {| generation_history := generation_history (self s) ++ [g];
              quality_scores :=
                quality_scores (self s) ++ [quality_score g] |}
           (tick (draw (tick s)))).
Proof.
  intros Hp Henc.
  destruct (rendered_template p c Hp) as (t & body_of & Ht & Hsyn & Hin).
  destruct (generate_content_state md5_hexdigest p c t (body_of topic)
              topic tone language s Ht (λ prompt, Hsyn prompt topic) Henc)
    as (ttl & _ & Hg).
  exists t, body_of, ttl. repeat split; try done.
  all: destruct (simulate_generation_outcome t topic)
         as [(b & Hb & _ & Hnl & Hhash)|Hraise];
    [ specialize (Hb [] s); rewrite Hsyn in Hb; by injection Hb as ->
    | specialize (Hraise [] s); by rewrite Hsyn in Hraise ].
Qed.

(** X9. For a rendered pair and a topic that can be encoded the call
    returns a content whose body has a line break and a [#], so that it
    scores 0.8999999999999999 when the length of the body is in the range of
    the template and 0.7 when it is not. *)
Theorem generate_content_score (p : Platform) (c : ContentType)
    (topic tone language : str) (s : State) :
  (p, c) ∈ rendered_pairs →
  encodable topic →
  ∃ t g s',
    lookup_template p c = Some t
    ∧ generate p c topic tone language s = (Return g, s')
    ∧ 10%N ∈ body g
    ∧ 35%N ∈ body g
    ∧ quality_score g
      = if bool_decide (min_length t ≤ Z.of_nat (length (body g))
                        ≤ max_length t)%Z
        then 0.8999999999999999%float else 0.7%float.
Proof.
  intros Hp Henc.
  destruct (generate_content_returns p c topic tone language s Hp Henc)
    as (t & body_of & ttl & Ht & _ & Hnl & Hhash & Hg).
  cbv zeta in Hg. eexists t, _, _. split; [done|]. split; [exact Hg|].
  cbn [body quality_score]. repeat split; try done.
  by apply structured_body_score.
Qed.

(** The score of one pair, from a condition on the topic that decides the
    length test. *)
Lemma generate_content_score_when (p : Platform) (c : ContentType)
    (t : ContentTemplate) (body_of : str → str) (in_range : Prop)
    `{Decision in_range} (topic tone language : str) (s : State) :
  lookup_template p c = Some t →
  (∀ prompt s, _simulate_generation prompt t topic s
               = (Return (body_of topic), s)) →
  ((min_length t ≤ Z.of_nat (length (body_of topic)) ≤ max_length t)%Z
   ↔ in_range) →
  encodable topic →
  ∃ g s',
    generate p c topic tone language s = (Return g, s')
    ∧ quality_score g
      = if bool_decide in_range then 0.8999999999999999%float
        else 0.7%float.
Proof.
  intros Ht Hsyn Hrange Henc.
  destruct (generate_content_state md5_hexdigest p c t (body_of topic)
              topic tone language s Ht Hsyn Henc) as (ttl & _ & Hg).
  cbv zeta in Hg. eexists _, _. split; [exact Hg|]. cbn [quality_score].
  destruct (simulate_generation_outcome t topic)
    as [(b & Hb & _ & Hnl & Hhash)|Hraise];
    [|specialize (Hraise [] s); by rewrite Hsyn in Hraise].
  specialize (Hb [] s). rewrite Hsyn in Hb. injection Hb as <-.
  rewrite structured_body_score by done.
  by rewrite (bool_decide_ext _ _ Hrange).
Qed.

(** X10. What each rendered pair scores for a topic of length [n] that can
    be encoded. A blog article scores 0.8999999999999999 when 63 ≤ n ≤ 178,
    a Weibo post when n ≤ 35, a LinkedIn post when 64 ≤ n ≤ 263, a tweet
    when the topic is not empty and twice [n] plus the number of its
    non-space characters is at most 181; otherwise they score 0.7. *)
Theorem quality_by_topic_length (topic tone language : str) (s : State) :
  encodable topic →
  (∃ g s',
     generate BLOG ARTICLE topic tone language s = (Return g, s')
     ∧ quality_score g
       = if bool_decide (63 ≤ length topic ≤ 178)
         then 0.8999999999999999%float else 0.7%float)
  ∧ (∃ g s',
       generate WEIBO POST topic tone language s = (Return g, s')
       ∧ quality_score g
         = if bool_decide (length topic ≤ 35)
           then 0.8999999999999999%float else 0.7%float)
  ∧ (∃ g s',
       generate LINKEDIN POST topic tone language s = (Return g, s')
       ∧ quality_score g
         = if bool_decide (64 ≤ length topic ≤ 263)
           then 0.8999999999999999%float else 0.7%float)
  ∧ (∃ g s',
       generate TWITTER POST topic tone language s = (Return g, s')
       ∧ quality_score g
         = if bool_decide
                (1 ≤ 2 * length topic
                     + length (filter (λ c, c ≠ 32%N) topic) ≤ 181)
           then 0.8999999999999999%float else 0.7%float).
Proof.
  intros Henc. repeat split.
  - apply (generate_content_score_when BLOG ARTICLE blog_article guide_body);
      [by vm_compute | done | | done].
    rewrite guide_body_length.
    change (min_length blog_article) with 1500%Z.
    change (max_length blog_article) with 3000%Z. lia.
  - apply (generate_content_score_when WEIBO POST weibo_post weibo_body);
      [by vm_compute | done | | done].
    rewrite weibo_body_length.
    change (min_length weibo_post) with 50%Z.
    change (max_length weibo_post) with 200%Z. lia.
  - apply (generate_content_score_when LINKEDIN POST linkedin_post
             career_body); [by vm_compute | done | | done].
    rewrite career_body_length.
    change (min_length linkedin_post) with 500%Z.
    change (max_length linkedin_post) with 1500%Z. lia.
  - apply (generate_content_score_when TWITTER POST twitter_post tweet_body);
      [by vm_compute | done | | done].
    rewrite tweet_body_length.
    change (min_length twitter_post) with 100%Z.
    change (max_length twitter_post) with 280%Z. lia.
Qed.

(** X11. What a call for a rendered pair does to the process. With a topic
    that can be encoded it reads the clock twice, the id coming from the
    first reading and [created_at] from the second, and draws once from the
    generator; the content it returns carries the values of the platform
    and of the content type, the tags, hashtags and variants derived from
    the topic and the body, and is the last entry of the history, its score
    the last of the score list. With a topic that cannot be encoded it
    raises after the first reading of the clock: nothing is appended and
    nothing is drawn. *)
Theorem generate_content_effect (p : Platform) (c : ContentType)
    (topic tone language : str) (s : State) :
  (p, c) ∈ rendered_pairs →
  (encodable topic →
   ∃ g s',
     generate p c topic tone language s = (Return g, s')
     ∧ id g = take 8 (md5_hexdigest
                        (utf8_bytes
                           (topic ++ Platform_value p
                            ++ ascii_text
                                 (timestamp (clock s (clock_reads s))))))
     ∧ created_at g
       = ascii_text (isoformat (clock s (S (clock_reads s))))
     ∧ gc_platform g = Platform_value p
     ∧ gc_content_type g = ContentType_value c
     ∧ tags g = _generate_tags topic p
     ∧ hashtags g = _generate_hashtags topic p
     ∧ variants g = _generate_variants (body g) p
     ∧ generation_history (self s') = generation_history (self s) ++ [g]
     ∧ quality_scores (self s')
       = quality_scores (self s) ++ [quality_score g]
     ∧ clock_reads s' = 2 + clock_reads s
     ∧ random_draws s' = 1 + random_draws s
     ∧ clock s' = clock s
     ∧ random s' = random s)
  ∧ (¬ encodable topic →
     ∃ s',
       generate p c topic tone language s = (Raise UnicodeEncodeError, s')
       ∧ self s' = self s
       ∧ clock_reads s' = 1 + clock_reads s
       ∧ random_draws s' = random_draws s
       ∧ clock s' = clock s
       ∧ random s' = random s).
Proof.
  intros Hp. split; intros Henc.
  - destruct (generate_content_returns p c topic tone language s Hp Henc)
      as (t & body_of & ttl & _ & _ & _ & _ & Hg).
    cbv zeta in Hg. eexists _, _. split; [exact Hg|]. by repeat split.
  - destruct (rendered_template p c Hp) as (t & body_of & Ht & Hsyn & _).
    exists (tick s). split; [|done].
    by apply (generate_content_encode_error md5_hexdigest p c t
                (body_of topic)).
Qed.


Lemma perform_generate (p : Platform) (c : ContentType)
    (topic tone language : str) (s : State) :
  (exec (call_generate p c topic tone language) s).2
  = (generate p c topic tone language s).2.
Proof.
  unfold perform, mbind, Py_bind.
  by destruct (generate p c topic tone language s) as [[g|e] s'].
Qed.

(** A call that reads, or that finds no template, leaves the whole process
    as it was. *)
Lemma perform_idle (call : Call) (s : State) :
  generates call = false → (exec call s).2 = s.
Proof.
  destruct call as [p c topic tone language| | |p]; cbn [generates];
    intros Hg.
  - rewrite perform_generate. apply bool_decide_eq_false in Hg.
    destruct (lookup_template p c) as [t|] eqn:E; [by destruct Hg|].
    by rewrite generate_content_raises.
  - unfold perform. destruct (get_statistics_returns s) as [st Hst].
    unfold mbind, Py_bind. by rewrite Hst.
  - done.
  - unfold perform. apply bind_state; [|done].
    apply comprehension_state. by intros [ct t].
Qed.

(** X12. A session leaves the process exactly as the same session without
    its reading calls and without its [generate_content] calls for pairs
    that have no template. *)
Theorem session_skips_idle_calls (cs : list Call) (s : State) :
  session cs s = session (filter (λ call, generates call = true) cs) s.
Proof.
  revert s. induction cs as [|call cs IH]; intros s; [done|].
  destruct (generates call) eqn:Hg.
  - rewrite filter_cons_True by done. cbn [run]. apply IH.
  - rewrite filter_cons_False by (rewrite Hg; done).
    cbn [run]. rewrite perform_idle by done. apply IH.
Qed.





End GeneratedContents.

(** ** Statistics over a history *)

Lemma count_by_snoc (key : GeneratedContent → str)
    (history : list GeneratedContent) (g : GeneratedContent) :
  count_by key (history ++ [g])
  = <[key g := default 0 (count_by key history !! key g) + 1]>
      (count_by key history).
Proof. unfold count_by. by rewrite foldl_app. Qed.

Lemma count_by_lookup (key : GeneratedContent → str)
    (history : list GeneratedContent) (k : str) :
  count_by key history !! k
  = match length (filter (λ g, key g = k) history) with
    | 0 => None
    | S n => Some (S n)
    end.
Proof.
  induction history as [|g history IH] using rev_ind; [done|].
  rewrite count_by_snoc, filter_app, length_app.
  destruct (decide (key g = k)) as [<-|Hne].
  - rewrite lookup_insert_eq, IH, filter_cons_True by done. cbn [filter].
    destruct (length (filter _ history)); cbn; f_equal; lia.
  - rewrite lookup_insert_ne, IH, filter_cons_False by done. cbn.
    by rewrite Nat.add_0_r.
Qed.

(** X14. In every state [get_statistics] returns, and what it returns
    counts the history: the total is its length, the entry of a platform
    value (or a content-type value) is the number of contents with it, and a
    value no content has is absent rather than counted 0. *)
Theorem get_statistics_counts (s : State) :
  ∃ st,
    get_statistics s = (Return st, s)
    ∧ total_generated st = length (generation_history (self s))
    ∧ (∀ k, default 0 (by_platform st !! k)
            = length (filter (λ g, gc_platform g = k)
                             (generation_history (self s))))
    ∧ (∀ k, default 0 (by_type st !! k)
            = length (filter (λ g, gc_content_type g = k)
                             (generation_history (self s))))
    ∧ (∀ k, by_platform st !! k ≠ Some 0)
    ∧ (∀ k, by_type st !! k ≠ Some 0).
Proof.
  unfold get_statistics.
  destruct (quality_scores (self s)) as [|q qs];
    (eexists; split; [reflexivity|]; cbn;
     repeat split; intros k; rewrite count_by_lookup;
     by destruct (length _)).
Qed.

Section StatisticsOfSessions.

Variable md5_hexdigest : list N → str.

Local Abbreviation generate := (generate_content md5_hexdigest).
Local Abbreviation session := (run md5_hexdigest).

(** Statistics before and after one content is appended. *)
Lemma statistics_after_append (s s' : State) (g : GeneratedContent) :
  generation_history (self s') = generation_history (self s) ++ [g] →
  ∃ st st',
    get_statistics s = (Return st, s)
    ∧ get_statistics s' = (Return st', s')
    ∧ total_generated st' = S (total_generated st)
    ∧ by_platform st'
      = <[gc_platform g := S (default 0 (by_platform st !! gc_platform g))]>
          (by_platform st)
    ∧ by_type st'
      = <[gc_content_type g :=
            S (default 0 (by_type st !! gc_content_type g))]>
          (by_type st).
Proof.
  intros Hh.
  destruct (get_statistics_returns s) as [st Hst].
  destruct (get_statistics_returns s') as [st' Hst'].
  exists st, st'. repeat split; try done.
  all: revert Hst Hst'; unfold get_statistics;
    destruct (quality_scores (self s)), (quality_scores (self s'));
    cbn; intros [= <-] [= <-]; cbn; rewrite Hh, ?length_app, ?count_by_snoc;
    cbn; try lia; f_equal; lia.
Qed.

(** X15. A call that returns a content moves the statistics by one content:
    the total grows by one, the count of its platform value and the count of
    its content-type value grow by one (from 0 when they were absent), and
    no other count changes. *)
Theorem generate_content_statistics (p : Platform) (c : ContentType)
    (topic tone language : str) (s : State) :
  (p, c) ∈ rendered_pairs →
  encodable topic →
  ∃ g s' st st',
    generate p c topic tone language s = (Return g, s')
    ∧ get_statistics s = (Return st, s)
    ∧ get_statistics s' = (Return st', s')
    ∧ total_generated st' = S (total_generated st)
    ∧ by_platform st'
      = <[Platform_value p :=
            S (default 0 (by_platform st !! Platform_value p))]>
          (by_platform st)
    ∧ by_type st'
      = <[ContentType_value c :=
            S (default 0 (by_type st !! ContentType_value c))]>
          (by_type st).
Proof.
  intros Hp Henc.
  destruct (generate_content_returns md5_hexdigest p c topic tone language
              s Hp Henc) as (t & body_of & ttl & _ & _ & _ & _ & Hg).
  cbv zeta in Hg.
  match type of Hg with
  | _ = (Return ?g, ?s') =>
      destruct (statistics_after_append s s' g eq_refl)
        as (st & st' & Hst & Hst' & Htotal & Hbp & Hbt);
      exists g, s', st, st'
  end.
  by repeat split.
Qed.


End StatisticsOfSessions.

Section Identifiers.

Variable md5_hexdigest : list N → str.

Local Abbreviation generate := (generate_content md5_hexdigest).

(** X17. The identifier has at most 8 characters and is made of the topic,
    the platform and the first clock reading alone: two calls for the same
    rendered pair and the same topic, one that can be encoded, whose clocks
    show the same timestamp return contents with the same identifier,
    whatever the tones, languages, histories and generators. *)
Theorem generate_content_id_collides (p : Platform) (c : ContentType)
    (topic tone1 tone2 language1 language2 : str) (s1 s2 : State) :
  (p, c) ∈ rendered_pairs →
  encodable topic →
  timestamp (clock s1 (clock_reads s1))
  = timestamp (clock s2 (clock_reads s2)) →
  ∃ g1 s1' g2 s2',
    generate p c topic tone1 language1 s1 = (Return g1, s1')
    ∧ generate p c topic tone2 language2 s2 = (Return g2, s2')
    ∧ id g1 = id g2
    ∧ length (id g1) ≤ 8.
Proof.
  intros Hp Henc Hts.
  destruct (generate_content_returns md5_hexdigest p c topic tone1
              language1 s1 Hp Henc)
    as (t1 & b1 & ttl1 & _ & _ & _ & _ & Hg1).
  destruct (generate_content_returns md5_hexdigest p c topic tone2
              language2 s2 Hp Henc)
    as (t2 & b2 & ttl2 & _ & _ & _ & _ & Hg2).
  cbv zeta in Hg1, Hg2.
  eexists _, _, _, _. split; [exact Hg1|]. split; [exact Hg2|].
  cbn [id]. split; [by rewrite Hts|].
  rewrite length_take. lia.
Qed.

End Identifiers.

(** ** The further properties at work *)

Lemma sample_topic_encodable : encodable (u "咖啡").
Proof. apply (bool_decide_unpack _). by vm_compute. Qed.

Lemma weibo_post_rendered : (WEIBO, POST) ∈ rendered_pairs.
Proof. apply (bool_decide_unpack _). by vm_compute. Qed.

(** X9 for a Weibo post. *)
Lemma generate_content_score_witness :
  ∃ t g s',
    lookup_template WEIBO POST = Some t
    ∧ sample_generate WEIBO POST (u "咖啡") (u "neutral") (u "zh")
        sample_state = (Return g, s')
    ∧ 10%N ∈ body g
    ∧ 35%N ∈ body g
    ∧ quality_score g
      = if bool_decide (min_length t ≤ Z.of_nat (length (body g))
                        ≤ max_length t)%Z
        then 0.8999999999999999%float else 0.7%float.
Proof.
  exact (generate_content_score sample_md5 WEIBO POST (u "咖啡")
           (u "neutral") (u "zh") sample_state weibo_post_rendered
           sample_topic_encodable).
Defined.

(** X10 for a two-character topic. *)
Lemma quality_by_topic_length_witness :
  ∃ g s',
    sample_generate BLOG ARTICLE (u "咖啡") (u "neutral") (u "zh")
      sample_state = (Return g, s')
    ∧ quality_score g
      = if bool_decide (63 ≤ length (u "咖啡") ≤ 178)
        then 0.8999999999999999%float else 0.7%float.
Proof.
  exact (proj1 (quality_by_topic_length sample_md5 (u "咖啡") (u "neutral")
                  (u "zh") sample_state sample_topic_encodable)).
Defined.

(** X11 for a Weibo post, with a topic that can be encoded. *)
Lemma generate_content_effect_witness :
  ∃ g s',
    sample_generate WEIBO POST (u "咖啡") (u "neutral") (u "zh") sample_state
    = (Return g, s')
    ∧ id g = take 8 (sample_md5
                       (utf8_bytes
                          (u "咖啡" ++ Platform_value WEIBO
                           ++ ascii_text
                                (timestamp
                                   (clock sample_state
                                      (clock_reads sample_state))))))
    ∧ created_at g
      = ascii_text
          (isoformat (clock sample_state (S (clock_reads sample_state))))
    ∧ gc_platform g = Platform_value WEIBO
    ∧ gc_content_type g = ContentType_value POST
    ∧ tags g = _generate_tags (u "咖啡") WEIBO
    ∧ hashtags g = _generate_hashtags (u "咖啡") WEIBO
    ∧ variants g = _generate_variants (body g) WEIBO
    ∧ generation_history (self s')
      = generation_history (self sample_state) ++ [g]
    ∧ quality_scores (self s')
      = quality_scores (self sample_state) ++ [quality_score g]
    ∧ clock_reads s' = 2 + clock_reads sample_state
    ∧ random_draws s' = 1 + random_draws sample_state
    ∧ clock s' = clock sample_state
    ∧ random s' = random sample_state.
Proof.
  exact (proj1 (generate_content_effect sample_md5 WEIBO POST (u "咖啡")
                  (u "neutral") (u "zh") sample_state weibo_post_rendered)
           sample_topic_encodable).
Defined.

(** X15 for the first Weibo post of a process. *)
Lemma generate_content_statistics_witness :
  ∃ g s' st st',
    sample_generate WEIBO POST (u "咖啡") (u "neutral") (u "zh") sample_state
    = (Return g, s')
    ∧ get_statistics sample_state = (Return st, sample_state)
    ∧ get_statistics s' = (Return st', s')
    ∧ total_generated st' = S (total_generated st)
    ∧ by_platform st'
      = <[Platform_value WEIBO :=
            S (default 0 (by_platform st !! Platform_value WEIBO))]>
          (by_platform st)
    ∧ by_type st'
      = <[ContentType_value POST :=
            S (default 0 (by_type st !! ContentType_value POST))]>
          (by_type st).
Proof.
  exact (generate_content_statistics sample_md5 WEIBO POST (u "咖啡")
           (u "neutral") (u "zh") sample_state weibo_post_rendered
           sample_topic_encodable).
Defined.

(** X17 for two Weibo posts about one topic at one instant. *)
Lemma generate_content_id_collides_witness :
  ∃ g1 s1' g2 s2',
    sample_generate WEIBO POST (u "咖啡") (u "neutral") (u "zh") sample_state
    = (Return g1, s1')
    ∧ sample_generate WEIBO POST (u "咖啡") (u "formal") (u "en")
        (tick sample_state) = (Return g2, s2')
    ∧ id g1 = id g2
    ∧ length (id g1) ≤ 8.
Proof.
  exact (generate_content_id_collides sample_md5 WEIBO POST (u "咖啡")
           (u "neutral") (u "formal") (u "zh") (u "en") sample_state
           (tick sample_state) weibo_post_rendered sample_topic_encodable
           eq_refl).
Defined.
